(** * Fedecat Shooting: import reconciliation, aggregation and ranking

    A shallow embedding of the core operations of the two prototypes of the
    repository:

    - [FedecatShooting.py] (module [PerRound] below): shooters, competitions,
      squads, entries and per-round results in a local SQLite database,
      imported from spreadsheets, and the ranking of a competition;
    - [fede_shooting_kivy_prototype.py] (module [Kivy] below): shooters keyed
      by licence and one aggregate result per shooter.

    Spreadsheet cells are the values openpyxl hands over, the database is the
    list of rows of each table in rowid order, and a connection is a working
    copy of the database that becomes the database at [conn.commit()]. *)

From Stdlib Require Import ZArith List String Ascii Bool Lia Permutation Sorted.
From Stdlib Require Import DecimalString.
Import ListNotations.

Local Open Scope string_scope.
Local Open Scope Z_scope.

(** ** Python values *)

Module Py.

(** The value of a spreadsheet cell as [ws.iter_rows(values_only=True)]
    yields it: an empty cell is [None], a text cell a [str], a numeric cell
    an [int], a boolean cell a [bool].  Cells holding floats or dates are
    outside this model. *)
Inductive cell : Type :=
| CNone
| CStr (s : string)
| CInt (z : Z)
| CBool (b : bool).

(** The exceptions the operations can raise. *)
Inductive exn : Type :=
| RuntimeError (msg : string)
| AttributeError
| ValueError
| TypeError
| IndexError
| IntegrityError.

(** Truth value of a cell, as [if x], [not x] and [x or y] test it. *)
Definition truthy (c : cell) : bool :=
  match c with
  | CNone => false
  | CStr s => negb (s =? "")%string
  | CInt z => negb (z =? 0)
  | CBool b => b
  end.

(** [x or y]. *)
Definition py_or (x y : cell) : cell := if truthy x then x else y.

(** [str(z)] for an [int]. *)
Definition str_of_Z (z : Z) : string := NilZero.string_of_int (Z.to_int z).

(** [str(x)], also what an f-string writes for [{x}]. *)
Definition str (c : cell) : string :=
  match c with
  | CNone => "None"
  | CStr s => s
  | CInt z => str_of_Z z
  | CBool true => "True"
  | CBool false => "False"
  end.

(** Whitespace as [str.strip()] and [int()] see it, for the ASCII range:
    tab, line feed, vertical tab, form feed, carriage return, the four
    separators 28..31 and the space. *)
Definition is_space (a : ascii) : bool :=
  let n := nat_of_ascii a in
  ((9 <=? n) && (n <=? 13) || (28 <=? n) && (n <=? 32))%nat.

Fixpoint lstrip (s : string) : string :=
  match s with
  | EmptyString => EmptyString
  | String a s' => if is_space a then lstrip s' else s
  end.

Fixpoint rstrip (s : string) : string :=
  match s with
  | EmptyString => EmptyString
  | String a s' =>
      match rstrip s' with
      | EmptyString => if is_space a then EmptyString else String a EmptyString
      | r => String a r
      end
  end.

(** [s.strip()]. *)
Definition strip (s : string) : string := rstrip (lstrip s).

Definition digit_of (a : ascii) : option Z :=
  let n := nat_of_ascii a in
  if ((48 <=? n) && (n <=? 57))%nat then Some (Z.of_nat n - 48) else None.

(** The digits of a decimal literal, read left to right with the value so
    far: single underscores may separate digits. [after_digit] tells whether
    the previous character was a digit. *)
Fixpoint digits (s : string) (acc : Z) (after_digit : bool) : option Z :=
  match s with
  | EmptyString => if after_digit then Some acc else None
  | String a s' =>
      match digit_of a with
      | Some d => digits s' (10 * acc + d) true
      | None =>
          if (Ascii.eqb a "_"%char && after_digit)%bool
          then digits s' acc false
          else None
      end
  end.

(** [int(s)] for a [str]: surrounding whitespace is dropped, then an
    optional sign and a decimal literal are read; anything else is a
    [ValueError], here [None]. *)
Definition int_of_string (s : string) : option Z :=
  match strip s with
  | String "+"%char r => digits r 0 false
  | String "-"%char r => option_map Z.opp (digits r 0 false)
  | r => digits r 0 false
  end.

(** [int(x)]. *)
Definition int (c : cell) : Z + exn :=
  match c with
  | CNone => inr TypeError
  | CStr s => match int_of_string s with Some z => inl z | None => inr ValueError end
  | CInt z => inl z
  | CBool b => inl (if b then 1 else 0)
  end.

Definition cell_is_str (c : cell) (k : string) : bool :=
  match c with
  | CStr s => (s =? k)%string
  | _ => false
  end.

(** [data = dict(zip(headers, row))] followed by [data.get(k)] for a text
    key [k]: [zip] stops at the shorter of the two, a header that occurs
    twice keeps the value of its last column, and an absent key gives
    [None]. *)
Fixpoint data_get (headers row : list cell) (k : string) : cell :=
  match headers, row with
  | h :: hs, v :: vs =>
      if existsb (fun p => cell_is_str (fst p) k) (combine hs vs)
      then data_get hs vs k
      else if cell_is_str h k then v else CNone
  | _, _ => CNone
  end.

End Py.

(** ** A connection to the database

    Every operation of the repository opens its own connection
    ([get_conn()]), runs its statements on it and calls [conn.commit()] when
    it is through.  The sqlite3 module opens a transaction before the first
    INSERT or UPDATE of a connection, so a statement changes the
    connection's view only; [commit] makes that view the database, and a
    connection that is dropped before its [commit] (an exception, or a
    [return] on the way) leaves the database as it was. *)

Module Conn.

Import Py.

Section WithStore.

Variable store : Type.

(** What a running operation can see and change: the database as
    committed, the view of the open connection, and the lines printed so
    far. *)
Record world : Type := mk_world {
  file : store;
  conn : store;
  stdout : list string
}.

(** A computation returns a value or raises, and leaves a world. *)
Definition M (A : Type) : Type := world -> (A + exn) * world.

Definition ret {A} (a : A) : M A := fun w => (inl a, w).

Definition bind {A B} (m : M A) (k : A -> M B) : M B :=
  fun w =>
    match m w with
    | (inl a, w') => k a w'
    | (inr e, w') => (inr e, w')
    end.

Definition raise {A} (e : exn) : M A := fun w => (inr e, w).

(** A value computed by plain Python code that may raise. *)
Definition lift {A} (r : A + exn) : M A := fun w => (r, w).

(** [print(line)]. *)
Definition print (line : string) : M unit :=
  fun w => (inl tt, mk_world (file w) (conn w) (stdout w ++ [line])).

(** [cur.execute("SELECT ...")] followed by the fetch. *)
Definition query {A} (q : store -> A) : M A := fun w => (inl (q (conn w)), w).

(** [cur.execute] of an INSERT or UPDATE that cannot fail. *)
Definition execute (f : store -> store) : M unit :=
  fun w => (inl tt, mk_world (file w) (f (conn w)) (stdout w)).

(** [cur.execute] of a statement that a constraint can reject. *)
Definition execute_checked (f : store -> store + exn) : M unit :=
  fun w =>
    match f (conn w) with
    | inl s => (inl tt, mk_world (file w) s (stdout w))
    | inr e => (inr e, w)
    end.

(** [conn.commit()]. *)
Definition commit : M unit :=
  fun w => (inl tt, mk_world (conn w) (conn w) (stdout w)).

(** [conn = get_conn()] on the database [db], with nothing printed yet. *)
Definition get_conn (db : store) : world := mk_world db db [].

(** An operation run on the database [db]: what it returns or raises, the
    database it leaves, and what it printed. *)
Definition run {A} (m : M A) (db : store) : (A + exn) * store * list string :=
  let '(r, w) := m (get_conn db) in (r, file w, stdout w).

(** [m] leaves the observation [p] of the world as it found it. *)
Definition keeps {A X} (p : world -> X) (m : M A) : Prop :=
  forall w r w', m w = (r, w') -> p w' = p w.

(** [m] reads nothing of what was printed before it and only adds to it. *)
Definition framed {A} (m : M A) : Prop :=
  forall f c out,
    m (mk_world f c out)
    = let (r, w') := m (mk_world f c []) in
      (r, mk_world (file w') (conn w') (out ++ stdout w')).

Definition result {A} (o : (A + exn) * store * list string) : A + exn := fst (fst o).
Definition db_after {A} (o : (A + exn) * store * list string) : store := snd (fst o).
Definition printed {A} (o : (A + exn) * store * list string) : list string := snd o.

End WithStore.

Arguments mk_world {store}.
Arguments file {store}.
Arguments conn {store}.
Arguments stdout {store}.
Arguments ret {store A}.
Arguments bind {store A B}.
Arguments raise {store A}.
Arguments lift {store A}.
Arguments print {store}.
Arguments query {store A}.
Arguments execute {store}.
Arguments execute_checked {store}.
Arguments commit {store}.
Arguments get_conn {store}.
Arguments run {store A}.
Arguments keeps {store A X}.
Arguments framed {store A}.
Arguments result {store A}.
Arguments db_after {store A}.
Arguments printed {store A}.

End Conn.

Declare Scope conn_scope.
Delimit Scope conn_scope with conn.
Notation "x <- m ;; k" := (Conn.bind m (fun x => k))
  (at level 61, m at next level, right associativity) : conn_scope.
Notation "m ;;; k" := (Conn.bind m (fun _ => k))
  (at level 61, right associativity) : conn_scope.

(** ** Rows of a spreadsheet file *)

Module Excel.

Import Py.

Definition sheet : Type := list (list cell).

(** The file an import is pointed at: [Xlsx sheets] when openpyxl is
    installed and the path ends in [.xlsx] (the sheets by name, as
    [load_workbook] finds them), [NoXlsx] otherwise. *)
Inductive excel_file : Type :=
| NoXlsx
| Xlsx (sheets : list (string * sheet)).

(** [wb[name]], after the test [name in wb.sheetnames]. *)
Fixpoint sheet_named (name : string) (sheets : list (string * sheet)) : option sheet :=
  match sheets with
  | [] => None
  | (n, s) :: rest => if (n =? name)%string then Some s else sheet_named name rest
  end.

End Excel.

(** ** SQLite values *)

Module Sql.

Import Py.

(** What a TEXT column stores for a bound Python value: [None] is NULL, a
    number is stored as its decimal text, a [bool] is bound as 0 or 1. *)
Definition text (c : cell) : option string :=
  match c with
  | CNone => None
  | CStr s => Some s
  | CInt z => Some (str_of_Z z)
  | CBool b => Some (if b then "1" else "0")
  end.

(** A TEXT column as a query hands it back. *)
Definition text_cell (t : option string) : cell :=
  match t with
  | Some s => CStr s
  | None => CNone
  end.

(** [column = ?] on a TEXT column: NULL equals nothing. *)
Definition text_eqb (column : option string) (param : option string) : bool :=
  match column, param with
  | Some a, Some b => (a =? b)%string
  | _, _ => false
  end.

(** The rowid an AUTOINCREMENT key gives the next row of a table no row was
    ever deleted from: one more than the largest in use. *)
Definition next_id (ids : list Z) : Z := 1 + fold_right Z.max 0 ids.

(** [SUM(column)] over the selected rows: NULL when there is none. *)
Definition sum (xs : list Z) : option Z :=
  match xs with
  | [] => None
  | _ => Some (fold_right Z.add 0 xs)
  end.

End Sql.

(** ** Python lists and dicts *)

Module PyList.

Import Py.

(** A dict with text keys, in insertion order. *)
Definition dict : Type := list (string * cell).

(** [d[k]].  Every dict below is written out with the keys that are read
    from it, so the [KeyError] of an absent key is not modelled: it
    reads as [None]. *)
Fixpoint item (d : dict) (k : string) : cell :=
  match d with
  | [] => CNone
  | (k', v) :: d' => if (k' =? k)%string then v else item d' k
  end.

(** The integer a total holds. *)
Definition as_Z (c : cell) : Z :=
  match c with
  | CInt z => z
  | CBool b => if b then 1 else 0
  | _ => 0
  end.

(** [a < b] on pairs of integers, as Python compares tuples. *)
Definition key_ltb (a b : Z * Z) : bool :=
  (fst a <? fst b) || ((fst a =? fst b) && (snd a <? snd b)).

Definition key_eqb (a b : Z * Z) : bool :=
  (fst a =? fst b) && (snd a =? snd b).

Section Sorted.

Context {A : Type}.
Variable key : A -> Z * Z.

(** [x] goes in front of the first element whose key is not smaller. *)
Fixpoint insert (x : A) (l : list A) : list A :=
  match l with
  | [] => [x]
  | y :: l' => if key_ltb (key y) (key x) then y :: insert x l' else x :: y :: l'
  end.

(** [sorted(l, key=key)]: ascending in the key, and stable.  A stable sort
    has one result, which this insertion sort computes. *)
Definition sorted (l : list A) : list A := fold_right insert [] l.

(** The order a sort leaves between an element and a later one: the later
    one has no smaller key. *)
Definition key_le (x y : A) : Prop := key_ltb (key y) (key x) = false.

End Sorted.

Section Groups.

Context {A : Type}.

(** [grouped.setdefault(k, []).append(x)]. *)
Fixpoint setdefault_append (k : string) (x : A) (g : list (string * list A))
    : list (string * list A) :=
  match g with
  | [] => [(k, [x])]
  | (k', l) :: g' =>
      if (k' =? k)%string then (k', (l ++ [x])%list) :: g'
      else (k', l) :: setdefault_append k x g'
  end.

(** [g.get(k, [])]. *)
Fixpoint group_of (k : string) (g : list (string * list A)) : list A :=
  match g with
  | [] => []
  | (k', l) :: g' => if (k' =? k)%string then l else group_of k g'
  end.

(** The loop [for x in l: grouped.setdefault(cat(x), []).append(x)] from
    the dict [g]. *)
Definition group_into (cat : A -> string) (l : list A) (g : list (string * list A))
    : list (string * list A) :=
  fold_left (fun g x => setdefault_append (cat x) x g) l g.

(** The dict [g] of groups splits the list [l] by [cat]: its keys are
    distinct, under each key stand the elements of [l] of that category, in
    the order of [l] and at least one, every element of [l] stands under its
    category and under no other key, and the groups together are [l]. *)
Definition partition_by (cat : A -> string) (l : list A) (g : list (string * list A))
    : Prop :=
  NoDup (map fst g) /\
  (forall k grp, In (k, grp) g ->
     grp = filter (fun x => (cat x =? k)%string) l /\ grp <> []) /\
  (forall x, In x l -> exists grp, In (cat x, grp) g /\ In x grp) /\
  (forall k1 grp1 k2 grp2 x,
     In (k1, grp1) g -> In (k2, grp2) g -> In x grp1 -> In x grp2 ->
     k1 = k2 /\ grp1 = grp2) /\
  Permutation (List.concat (map snd g)) l.

(** [enumerate(l, start)]. *)
Fixpoint enumerate (start : Z) (l : list A) : list (Z * A) :=
  match l with
  | [] => []
  | x :: l' => (start, x) :: enumerate (start + 1) l'
  end.

End Groups.

End PyList.

(** ** FedecatShooting.py: the per-round prototype *)

Module PerRound.

Import Py Excel.
Local Open Scope conn_scope.

(** *** The tables of [init_db]

    A table is the list of its rows in rowid order.  Integers are kept
    unbounded: the 64-bit range of a SQLite INTEGER is far from the scores of
    a competition, and its overflow errors are not modelled. *)

Record shooter : Type := mk_shooter {
  sh_id : Z;
  sh_nombre : string;               (* TEXT NOT NULL *)
  sh_club : option string;
  sh_categoria : option string;
  sh_licencia : option string;
  sh_pais : option string;
  sh_dni : option string            (* TEXT UNIQUE *)
}.

(** The date, place and kind columns of a competition are never written. *)
Record competition : Type := mk_competition {
  co_id : Z;
  co_nombre : string                (* TEXT NOT NULL UNIQUE *)
}.

Record squad : Type := mk_squad {
  sq_id : Z;
  sq_competition_id : Z;
  sq_nombre : option string
}.

Record entry : Type := mk_entry {
  en_id : Z;
  en_competition_id : Z;
  en_shooter_id : Z;
  en_squad_id : Z;
  en_dorsal : option string
}.

Record round_result : Type := mk_round_result {
  rr_id : Z;
  rr_entry_id : Z;
  rr_round_number : Z;
  rr_hits : Z;
  rr_misses : Z;
  rr_score : Z;
  rr_detail : option string;
  rr_timestamp : string
}.

Record store : Type := mk_store {
  shooters : list shooter;
  competitions : list competition;
  squads : list squad;
  entries : list entry;
  round_results : list round_result
}.

(** The database right after [init_db] on a new file. *)
Definition empty_db : store := mk_store [] [] [] [] [].

Definition M := Conn.M store.

(** *** The SQL statements *)

(** [dni = ?] on a row of [shooters]. *)
Definition has_dni (dni : string) (x : shooter) : bool :=
  Sql.text_eqb (sh_dni x) (Some dni).

(** [SELECT id FROM shooters WHERE dni = ?] and [fetchone]. *)
Definition select_shooter_by_dni (dni : string) (s : store) : option Z :=
  option_map sh_id (find (has_dni dni) (shooters s)).

(** [UPDATE shooters SET nombre=?, club=?, categoria=?, licencia=?, pais=?
    WHERE id=?]: a NULL [nombre] breaks the NOT NULL constraint. *)
Definition update_shooter (nombre club categoria licencia pais : cell) (id : Z)
    (s : store) : store + exn :=
  match Sql.text nombre with
  | None => if existsb (fun x => sh_id x =? id) (shooters s) then inr IntegrityError else inl s
  | Some n =>
      inl (mk_store
             (map (fun x =>
                     if sh_id x =? id
                     then mk_shooter (sh_id x) n (Sql.text club) (Sql.text categoria)
                            (Sql.text licencia) (Sql.text pais) (sh_dni x)
                     else x)
                  (shooters s))
             (competitions s) (squads s) (entries s) (round_results s))
  end.

(** [INSERT OR IGNORE INTO shooters (nombre,club,categoria,licencia,pais,dni)]:
    a row that breaks NOT NULL on [nombre] or UNIQUE on [dni] is left out
    without an error. *)
Definition insert_or_ignore_shooter (nombre club categoria licencia pais : cell)
    (dni : option string) (s : store) : store :=
  match Sql.text nombre with
  | None => s
  | Some n =>
      if existsb (fun x => Sql.text_eqb (sh_dni x) dni) (shooters s)
      then s
      else mk_store
             (shooters s ++
                [mk_shooter (Sql.next_id (map sh_id (shooters s))) n (Sql.text club)
                   (Sql.text categoria) (Sql.text licencia) (Sql.text pais) dni])
             (competitions s) (squads s) (entries s) (round_results s)
  end.

(** [SELECT id FROM competitions WHERE nombre = ?] and [fetchone]. *)
Definition select_competition (name : string) (s : store) : option Z :=
  option_map co_id (find (fun c => (co_nombre c =? name)%string) (competitions s)).

(** [INSERT INTO competitions (nombre) VALUES (?)]. *)
Definition insert_competition (name : string) (s : store) : store :=
  mk_store (shooters s)
    (competitions s ++ [mk_competition (Sql.next_id (map co_id (competitions s))) name])
    (squads s) (entries s) (round_results s).

(** [cur.lastrowid] after that insert. *)
Definition last_competition_id (s : store) : Z :=
  fold_right Z.max 0 (map co_id (competitions s)).

(** [SELECT id FROM squads WHERE competition_id=? AND nombre=?] and
    [fetchone]. *)
Definition select_squad (comp_id : Z) (squad_name : cell) (s : store) : option Z :=
  option_map sq_id
    (find (fun q => (sq_competition_id q =? comp_id)
                    && Sql.text_eqb (sq_nombre q) (Sql.text squad_name))
          (squads s)).

(** [INSERT INTO squads (competition_id,nombre) VALUES (?,?)]. *)
Definition insert_squad (comp_id : Z) (squad_name : cell) (s : store) : store :=
  mk_store (shooters s) (competitions s)
    (squads s ++ [mk_squad (Sql.next_id (map sq_id (squads s))) comp_id (Sql.text squad_name)])
    (entries s) (round_results s).

Definition last_squad_id (s : store) : Z :=
  fold_right Z.max 0 (map sq_id (squads s)).

(** [INSERT INTO entries (competition_id, shooter_id, squad_id, dorsal)]:
    the table has no uniqueness constraint, its index on
    [(competition_id, dorsal)] is a plain one. *)
Definition insert_entry (comp_id shooter_id squad_id : Z) (dorsal : option string)
    (s : store) : store :=
  mk_store (shooters s) (competitions s) (squads s)
    (entries s ++
       [mk_entry (Sql.next_id (map en_id (entries s))) comp_id shooter_id squad_id dorsal])
    (round_results s).

(** [SELECT id FROM entries WHERE competition_id=? AND dorsal=?] and
    [fetchone]. *)
Definition select_entry (comp_id : Z) (dorsal : option string) (s : store) : option Z :=
  option_map en_id
    (find (fun e => (en_competition_id e =? comp_id) && Sql.text_eqb (en_dorsal e) dorsal)
          (entries s)).

(** [INSERT INTO round_results (entry_id, round_number, hits, misses, score,
    detail, timestamp)]. *)
Definition insert_round_result (entry_id round_number hits misses score : Z)
    (detail : option string) (ts : string) (s : store) : store :=
  mk_store (shooters s) (competitions s) (squads s) (entries s)
    (round_results s ++
       [mk_round_result (Sql.next_id (map rr_id (round_results s))) entry_id round_number
          hits misses score detail ts]).

(** *** import_shooters_from_excel *)

(** The key of a row of the sheet [Tiradores]:
    [(data.get("dni") or "").strip() if data.get("dni") else None], then
    [None] for the text ["None"].  A number has no [strip]. *)
Definition row_dni (c : cell) : option string + exn :=
  if truthy c then
    match py_or c (CStr "") with
    | CStr s => let d := strip s in
                if (d =? "None")%string then inl None else inl (Some d)
    | _ => inr AttributeError
    end
  else inl None.

(** [if dni:] for the key just read. *)
Definition dni_truthy (dni : option string) : bool :=
  match dni with
  | Some d => negb (d =? "")%string
  | None => false
  end.

(** The body of the loop over the data rows: the value of [created] after
    the row. *)
Definition shooter_row (headers row : list cell) (created : Z) : M Z :=
  let data := data_get headers row in
  dni <- Conn.lift (row_dni (data "dni")) ;;
  r <- (if dni_truthy dni
        then Conn.query (select_shooter_by_dni (match dni with Some d => d | None => "" end))
        else Conn.ret None) ;;
  match r with
  | Some id =>
      Conn.execute_checked
        (update_shooter (data "nombre") (data "club") (data "categoria")
           (data "licencia") (data "pais") id) ;;;
      Conn.ret created
  | None =>
      Conn.execute
        (insert_or_ignore_shooter (data "nombre") (data "club") (data "categoria")
           (data "licencia") (data "pais") dni) ;;;
      Conn.ret (created + 1)
  end.

Fixpoint shooter_rows (headers : list cell) (rows : list (list cell)) (created : Z) : M Z :=
  match rows with
  | [] => Conn.ret created
  | row :: rest =>
      c <- shooter_row headers row created ;;
      shooter_rows headers rest c
  end.

Definition import_shooters (f : excel_file) : M Z :=
  match f with
  | Xlsx sheets =>
      match sheet_named "Tiradores" sheets with
      | None =>
          Conn.print "Hoja 'Tiradores' no encontrada en el fichero." ;;;
          Conn.ret 0
      | Some rows =>
          match rows with
          | [] => Conn.raise IndexError
          | headers :: data_rows =>
              created <- shooter_rows headers data_rows 0 ;;
              Conn.commit ;;;
              Conn.print ("Tiradores importados/actualizados: " ++ str_of_Z created) ;;;
              Conn.ret created
          end
      end
  | NoXlsx =>
      Conn.raise
        (RuntimeError "Necesitas openpyxl para leer .xlsx o proporcionar un CSV alternativo")
  end.

Definition import_shooters_from_excel (f : excel_file) (db : store) :=
  Conn.run (import_shooters f) db.

(** *** import_inscriptions_from_excel *)

(** The key of a row of the sheet [Inscripciones]:
    [(data.get("shooter_dni") or "").strip() if data.get("shooter_dni") else None]. *)
Definition row_shooter_dni (c : cell) : option string + exn :=
  if truthy c then
    match py_or c (CStr "") with
    | CStr s => inl (Some (strip s))
    | _ => inr AttributeError
    end
  else inl None.

(** The dorsal as it is bound to a statement:
    [str(dorsal) if dorsal is not None else None]. *)
Definition dorsal_text (c : cell) : option string :=
  match c with
  | CNone => None
  | _ => Some (str c)
  end.

Definition shooter_not_found (shooter_dni : string) : string :=
  "Aviso: tirador con DNI " ++ shooter_dni ++ " no encontrado. Saltando.".

(** The body of the loop over the data rows, for the competition
    [comp_id]. *)
Definition inscription_row (comp_id : Z) (headers row : list cell) (created : Z) : M Z :=
  let data := data_get headers row in
  shooter_dni <- Conn.lift (row_shooter_dni (data "shooter_dni")) ;;
  if dni_truthy shooter_dni then
    let key := match shooter_dni with Some d => d | None => "" end in
    shooter <- Conn.query (select_shooter_by_dni key) ;;
    match shooter with
    | None =>
        Conn.print (shooter_not_found key) ;;;
        Conn.ret created
    | Some shooter_id =>
        let squad_name := py_or (data "squad") (CStr "Sin escuadra") in
        s <- Conn.query (select_squad comp_id squad_name) ;;
        squad_id <- match s with
                    | None =>
                        Conn.execute (insert_squad comp_id squad_name) ;;;
                        Conn.query last_squad_id
                    | Some id => Conn.ret id
                    end ;;
        Conn.execute (insert_entry comp_id shooter_id squad_id (dorsal_text (data "dorsal"))) ;;;
        Conn.ret (created + 1)
    end
  else Conn.ret created.

Fixpoint inscription_rows (comp_id : Z) (headers : list cell) (rows : list (list cell))
    (created : Z) : M Z :=
  match rows with
  | [] => Conn.ret created
  | row :: rest =>
      c <- inscription_row comp_id headers row created ;;
      inscription_rows comp_id headers rest c
  end.

Definition import_inscriptions (f : excel_file) (competition_name : string) : M Z :=
  comp <- Conn.query (select_competition competition_name) ;;
  comp_id <- match comp with
             | None =>
                 Conn.execute (insert_competition competition_name) ;;;
                 Conn.query last_competition_id
             | Some id => Conn.ret id
             end ;;
  match f with
  | Xlsx sheets =>
      match sheet_named "Inscripciones" sheets with
      | None =>
          Conn.print "Hoja 'Inscripciones' no encontrada en el fichero." ;;;
          Conn.ret 0
      | Some rows =>
          match rows with
          | [] => Conn.raise IndexError
          | headers :: data_rows =>
              created <- inscription_rows comp_id headers data_rows 0 ;;
              Conn.commit ;;;
              Conn.print ("Inscripciones importadas: " ++ str_of_Z created) ;;;
              Conn.ret created
          end
      end
  | NoXlsx =>
      Conn.raise
        (RuntimeError "Necesitas openpyxl para leer .xlsx o proporcionar un CSV alternativo")
  end.

Definition import_inscriptions_from_excel (f : excel_file) (competition_name : string)
    (db : store) :=
  Conn.run (import_inscriptions f competition_name) db.

(** *** import_results_from_excel *)

Definition competition_not_found (competition_name : string) : exn :=
  RuntimeError ("Competición no encontrada: " ++ competition_name).

Definition entry_not_found (dorsal : option string) (competition_name : string) : string :=
  "Aviso: entry con dorsal=" ++ match dorsal with Some d => d | None => "None" end
    ++ " no encontrada en competición " ++ competition_name ++ ". Saltando.".

(** [int(data.get(k) or default)]. *)
Definition int_or (c : cell) (default : Z) : Z + exn := int (py_or c (CInt default)).

(** The body of the loop over the data rows.  [utcnow n] is the reading of
    the clock at the call's [n]-th [datetime.utcnow().isoformat()], counted
    from 0: the loop reads the clock once for each row it stores, so the
    reading of a row is number [created]. *)
Definition result_row (utcnow : Z -> string) (comp_id : Z) (competition_name : string)
    (headers row : list cell) (created : Z) : M Z :=
  let data := data_get headers row in
  let dorsal := dorsal_text (data "dorsal") in
  entry <- Conn.query (select_entry comp_id dorsal) ;;
  match entry with
  | None =>
      Conn.print (entry_not_found dorsal competition_name) ;;;
      Conn.ret created
  | Some entry_id =>
      round_number <- Conn.lift (int_or (data "round") 1) ;;
      hits <- Conn.lift (int_or (data "hits") 0) ;;
      misses <- Conn.lift (int_or (data "misses") 0) ;;
      score <- Conn.lift (int_or (data "score") hits) ;;
      let detail := data "detalle" in
      let ts := utcnow created in
      Conn.execute
        (insert_round_result entry_id round_number hits misses score (Some (str detail)) ts) ;;;
      Conn.ret (created + 1)
  end.

Fixpoint result_rows (utcnow : Z -> string) (comp_id : Z) (competition_name : string)
    (headers : list cell) (rows : list (list cell)) (created : Z) : M Z :=
  match rows with
  | [] => Conn.ret created
  | row :: rest =>
      c <- result_row utcnow comp_id competition_name headers row created ;;
      result_rows utcnow comp_id competition_name headers rest c
  end.

Definition import_results (utcnow : Z -> string) (f : excel_file)
    (competition_name : string) : M Z :=
  comp <- Conn.query (select_competition competition_name) ;;
  match comp with
  | None => Conn.raise (competition_not_found competition_name)
  | Some comp_id =>
      match f with
      | Xlsx sheets =>
          match sheet_named "Resultados" sheets with
          | None =>
              Conn.print "Hoja 'Resultados' no encontrada en el fichero." ;;;
              Conn.ret 0
          | Some rows =>
              match rows with
              | [] => Conn.raise IndexError
              | headers :: data_rows =>
                  created <- result_rows utcnow comp_id competition_name headers data_rows 0 ;;
                  Conn.commit ;;;
                  Conn.print ("Resultados importados: " ++ str_of_Z created) ;;;
                  Conn.ret created
              end
          end
      | NoXlsx =>
          Conn.raise
            (RuntimeError "Necesitas openpyxl para leer .xlsx o proporcionar un CSV alternativo")
      end
  end.

Definition import_results_from_excel (utcnow : Z -> string) (f : excel_file)
    (competition_name : string) (db : store) :=
  Conn.run (import_results utcnow f competition_name) db.

(** *** compute_rankings *)

Import PyList.

(** [SELECT e.id as entry_id, e.dorsal, s.nombre as shooter_nombre, s.club,
    s.categoria FROM entries e JOIN shooters s ON e.shooter_id = s.id
    WHERE e.competition_id = ?]: the entries of the competition in rowid
    order, each with its shooter.  (SQL leaves the order of the rows open;
    what is proved of the ranking is relative to the order retrieved.) *)
Definition select_entries (comp_id : Z) (s : store) : list (entry * shooter) :=
  flat_map
    (fun e => map (fun x => (e, x)) (filter (fun x => sh_id x =? en_shooter_id e) (shooters s)))
    (filter (fun e => en_competition_id e =? comp_id) (entries s)).

(** [SELECT SUM(hits) as total_hits, SUM(score) as total_score FROM
    round_results WHERE entry_id = ?]. *)
Definition select_totals (entry_id : Z) (s : store) : option Z * option Z :=
  let rs := filter (fun r => rr_entry_id r =? entry_id) (round_results s) in
  (Sql.sum (map rr_hits rs), Sql.sum (map rr_score rs)).

(** [t if t is not None else 0]. *)
Definition or_zero (t : option Z) : Z :=
  match t with
  | Some z => z
  | None => 0
  end.

(** The dict appended to [standings] for one retrieved row. *)
Definition standing (s : store) (ex : entry * shooter) : dict :=
  let (e, x) := ex in
  let totals := select_totals (en_id e) s in
  [ ("dorsal", Sql.text_cell (en_dorsal e));
    ("nombre", CStr (sh_nombre x));
    ("club", Sql.text_cell (sh_club x));
    ("categoria", py_or (Sql.text_cell (sh_categoria x)) (CStr "Sin categoría"));
    ("total_hits", CInt (or_zero (fst totals)));
    ("total_score", CInt (or_zero (snd totals))) ].

(** [lambda x: (-x['total_score'], -x['total_hits'])]. *)
Definition ranking_key (x : dict) : Z * Z :=
  (- as_Z (item x "total_score"), - as_Z (item x "total_hits")).

(** The category of a standing: a text in every case, the column or the
    label that stands for a missing one. *)
Definition categoria (x : dict) : string := str (item x "categoria").

Inductive rankings : Type :=
| Grouped (grouped : list (string * list dict))
| Flat (standings_sorted : list dict).

Definition standings (comp_id : Z) (s : store) : list dict :=
  map (standing s) (select_entries comp_id s).

Definition compute_rankings (competition_name : string) (by_category : bool) (db : store)
    : rankings + exn :=
  match select_competition competition_name db with
  | None => inr (competition_not_found competition_name)
  | Some comp_id =>
      let standings_sorted := sorted ranking_key (standings comp_id db) in
      if by_category
      then inl (Grouped (group_into categoria standings_sorted []))
      else inl (Flat standings_sorted)
  end.

(** *** What is stated of a database and of a ranking *)

(** The constraint UNIQUE of the column [dni]: no key is that of two
    shooters. *)
Definition dni_unique (db : store) : Prop :=
  forall k, (List.length (filter (has_dni k) (shooters db)) <= 1)%nat.

(** The databases the operations lead to from a new one. *)
Inductive reachable : store -> Prop :=
| reach_init : reachable empty_db
| reach_shooters f db :
    reachable db -> reachable (Conn.db_after (import_shooters_from_excel f db))
| reach_inscriptions f name db :
    reachable db -> reachable (Conn.db_after (import_inscriptions_from_excel f name db))
| reach_results utcnow f name db :
    reachable db -> reachable (Conn.db_after (import_results_from_excel utcnow f name db)).

(** No two entries of a competition bear the same dorsal. *)
Definition dorsal_unique (db : store) : Prop :=
  forall e1 e2 d,
    In e1 (entries db) -> In e2 (entries db) ->
    en_competition_id e1 = en_competition_id e2 ->
    en_dorsal e1 = Some d -> en_dorsal e2 = Some d ->
    e1 = e2.

Definition total_score (x : dict) : Z := as_Z (item x "total_score").
Definition total_hits (x : dict) : Z := as_Z (item x "total_hits").

(** [x] may stand before [y] in a ranking: a larger score, or the same
    score and no fewer hits. *)
Definition ranks_before (x y : dict) : Prop :=
  total_score x > total_score y \/
  (total_score x = total_score y /\ total_hits x >= total_hits y).

(** The standings with the score [score] and the hits [hits]. *)
Definition tied (score hits : Z) (x : dict) : bool :=
  (total_score x =? score) && (total_hits x =? hits).

End PerRound.

(** ** fede_shooting_kivy_prototype.py: the total-only prototype *)

Module Kivy.

Import Py Excel PyList.
Local Open Scope conn_scope.

(** *** The tables of [init_db]

    [numero] is kept as the cell it was read from: nothing reads it back.
    The results are taken with the integer (or NULL) scores their INTEGER
    column holds for numeric input; the import that fills them is not part
    of this development. *)

Record shooter : Type := mk_shooter {
  sh_id : Z;
  sh_numero : cell;
  sh_nombre : string;               (* TEXT NOT NULL *)
  sh_categoria : option string;
  sh_comunidad : option string;
  sh_licencia : option string       (* TEXT UNIQUE *)
}.

Record result : Type := mk_result {
  re_id : Z;
  re_shooter_id : Z;
  re_serie : Z;
  re_hits : option Z;
  re_score : option Z;
  re_timestamp : string
}.

Record store : Type := mk_store {
  shooters : list shooter;
  results : list result
}.

Definition empty_db : store := mk_store [] [].

Definition M := Conn.M store.

(** *** import_shooters_from_excel *)

(** [headers.index(k)], [None] where Python raises [ValueError]; it is
    [Some] exactly when [k in headers]. *)
Fixpoint index (headers : list cell) (k : string) : option nat :=
  match headers with
  | [] => None
  | h :: hs => if cell_is_str h k then Some O else option_map S (index hs k)
  end.

(** [row[i]]. *)
Definition at_index (row : list cell) (i : nat) : cell + exn :=
  match nth_error row i with
  | Some c => inl c
  | None => inr IndexError
  end.

(** [row[i] if i is not None else None]. *)
Definition at_optional (row : list cell) (i : option nat) : cell + exn :=
  match i with
  | Some i => at_index row i
  | None => inl CNone
  end.

(** The key of a row: [str(row[idx_lic])] when there is a licence, and when
    that is empty or missing, a key made of the name and the number. *)
Definition row_licencia (lic nombre numero : cell) : string :=
  let licencia := match lic with
                  | CNone => None
                  | c => Some (str c)
                  end in
  match licencia with
  | Some l =>
      if (l =? "")%string
      then if truthy numero then "X-" ++ str nombre ++ "-" ++ str numero
           else "X-" ++ str nombre
      else l
  | None =>
      if truthy numero then "X-" ++ str nombre ++ "-" ++ str numero
      else "X-" ++ str nombre
  end.

(** [licencia = ?] on a row of [shooters]. *)
Definition has_licencia (licencia : string) (x : shooter) : bool :=
  Sql.text_eqb (sh_licencia x) (Some licencia).

(** [SELECT id FROM shooters WHERE licencia = ?] and [fetchone]. *)
Definition select_shooter_by_licencia (licencia : string) (s : store) : option Z :=
  option_map sh_id (find (has_licencia licencia) (shooters s)).

(** [UPDATE shooters SET numero=?, nombre=?, categoria=?, comunidad=?
    WHERE id=?]. *)
Definition update_shooter (numero nombre categoria comunidad : cell) (id : Z)
    (s : store) : store + exn :=
  match Sql.text nombre with
  | None => if existsb (fun x => sh_id x =? id) (shooters s) then inr IntegrityError else inl s
  | Some n =>
      inl (mk_store
             (map (fun x =>
                     if sh_id x =? id
                     then mk_shooter (sh_id x) numero n (Sql.text categoria)
                            (Sql.text comunidad) (sh_licencia x)
                     else x)
                  (shooters s))
             (results s))
  end.

(** [INSERT INTO shooters (numero,nombre,categoria,comunidad,licencia)]:
    a NULL [nombre] or a licence already stored is an error. *)
Definition insert_shooter (numero nombre categoria comunidad : cell) (licencia : string)
    (s : store) : store + exn :=
  match Sql.text nombre with
  | None => inr IntegrityError
  | Some n =>
      if existsb (has_licencia licencia) (shooters s)
      then inr IntegrityError
      else inl (mk_store
                  (shooters s ++
                     [mk_shooter (Sql.next_id (map sh_id (shooters s))) numero n
                        (Sql.text categoria) (Sql.text comunidad) (Some licencia)])
                  (results s))
  end.

(** The five reads of a row: [numero], [nombre], [categoria], [comunidad]
    and the cell of the licence. *)
Definition row_cells (idx_num : option nat) (idx_nombre idx_categoria : nat)
    (idx_comunidad idx_lic : option nat) (row : list cell)
    : (cell * cell * cell * cell * cell) + exn :=
  match at_optional row idx_num with
  | inr e => inr e
  | inl numero =>
      match at_index row idx_nombre with
      | inr e => inr e
      | inl nombre =>
          match at_index row idx_categoria with
          | inr e => inr e
          | inl categoria =>
              match at_optional row idx_comunidad with
              | inr e => inr e
              | inl comunidad =>
                  match at_optional row idx_lic with
                  | inr e => inr e
                  | inl lic => inl (numero, nombre, categoria, comunidad, lic)
                  end
              end
          end
      end
  end.

(** The body of the loop over the data rows: [created] and [updated] after
    the row. *)
Definition shooter_row (idx_num : option nat) (idx_nombre idx_categoria : nat)
    (idx_comunidad idx_lic : option nat) (row : list cell) (counts : Z * Z) : M (Z * Z) :=
  let (created, updated) := counts in
  cells <- Conn.lift (row_cells idx_num idx_nombre idx_categoria idx_comunidad idx_lic row) ;;
  let '(numero, nombre, categoria, comunidad, lic) := cells in
  let licencia := row_licencia lic nombre numero in
  r <- Conn.query (select_shooter_by_licencia licencia) ;;
  match r with
  | Some id =>
      Conn.execute_checked (update_shooter numero nombre categoria comunidad id) ;;;
      Conn.ret (created, updated + 1)
  | None =>
      Conn.execute_checked (insert_shooter numero nombre categoria comunidad licencia) ;;;
      Conn.ret (created + 1, updated)
  end.

Fixpoint shooter_rows (idx_num : option nat) (idx_nombre idx_categoria : nat)
    (idx_comunidad idx_lic : option nat) (rows : list (list cell)) (counts : Z * Z)
    : M (Z * Z) :=
  match rows with
  | [] => Conn.ret counts
  | row :: rest =>
      c <- shooter_row idx_num idx_nombre idx_categoria idx_comunidad idx_lic row counts ;;
      shooter_rows idx_num idx_nombre idx_categoria idx_comunidad idx_lic rest c
  end.

(** Here [NoXlsx] is a missing openpyxl: the path is not looked at. *)
Definition import_shooters (f : excel_file) : M (Z * Z) :=
  match f with
  | NoXlsx => Conn.raise (RuntimeError "openpyxl required")
  | Xlsx sheets =>
      match sheet_named "Tiradores" sheets with
      | None => Conn.raise (RuntimeError "Hoja 'Tiradores' no encontrada")
      | Some rows =>
          match rows with
          | [] => Conn.raise IndexError
          | headers :: data_rows =>
              let idx_num := index headers "Nº" in
              match index headers "Nombre" with
              | None => Conn.raise ValueError
              | Some idx_nombre =>
                  match index headers "Categoría" with
                  | None => Conn.raise ValueError
                  | Some idx_categoria =>
                      let idx_comunidad := index headers "Comunidad / País" in
                      let idx_lic := index headers "Licencia" in
                      c <- shooter_rows idx_num idx_nombre idx_categoria idx_comunidad
                             idx_lic data_rows (0, 0) ;;
                      Conn.commit ;;;
                      Conn.ret c
                  end
              end
          end
      end
  end.

Definition import_shooters_from_excel (f : excel_file) (db : store) :=
  Conn.run (import_shooters f) db.

(** The constraint UNIQUE of the column [licencia]: no licence is that of
    two shooters. *)
Definition licencia_unique (db : store) : Prop :=
  forall k, (List.length (filter (has_licencia k) (shooters db)) <= 1)%nat.

(** *** compute_rankings *)

(** One row of [SELECT s.id, s.numero, s.nombre, s.categoria, s.comunidad,
    s.licencia, COALESCE(SUM(r.score),0) as total_score FROM shooters s
    LEFT JOIN results r ON s.id = r.shooter_id GROUP BY s.id]: the shooter
    and the sum of its scores that are not NULL, 0 when there is none. *)
Definition total_score (s : store) (x : shooter) : Z :=
  match Sql.sum
          (flat_map (fun r => match re_score r with Some z => [z] | None => [] end)
             (filter (fun r => re_shooter_id r =? sh_id x) (results s)))
  with
  | Some z => z
  | None => 0
  end.

(** [... ORDER BY total_score DESC]: one row for each shooter ([id] is the
    primary key), the larger total first.  SQL leaves the order of equal
    totals open; they are kept in rowid order here, and nothing below
    depends on it. *)
Definition select_totals (s : store) : list (shooter * Z) :=
  sorted (fun r => (- snd r, 0)) (map (fun x => (x, total_score s x)) (shooters s)).

(** The dict appended to [general] for the row [r] at position [pos]. *)
Definition general_row (pr : Z * (shooter * Z)) : dict :=
  let '(pos, (x, total)) := pr in
  [ ("puesto", CInt pos);
    ("nombre", CStr (sh_nombre x));
    ("categoria", Sql.text_cell (sh_categoria x));
    ("total", CInt total);
    ("comunidad", Sql.text_cell (sh_comunidad x)) ].

(** [g["categoria"] or "Sin categoría"]. *)
Definition cat (g : dict) : string :=
  str (py_or (item g "categoria") (CStr "Sin categoría")).

Definition general (db : store) : list dict :=
  map general_row (enumerate 1 (select_totals db)).

(** [compute_rankings()]: [(general, cat_map)]. *)
Definition compute_rankings (db : store) : list dict * list (string * list dict) :=
  (general db, group_into cat (general db) []).

End Kivy.

(** ** Sample spreadsheets and databases *)

Module Examples.

Import Py Excel.

Definition tiradores : excel_file :=
  Xlsx [("Tiradores",
         [ [CStr "id"; CStr "nombre"; CStr "club"; CStr "categoria"; CStr "licencia";
            CStr "pais"; CStr "dni"];
           [CNone; CStr "Juan Pérez"; CStr "Club A"; CStr "Senior"; CStr "L-123";
            CStr "ESP"; CStr "12345678A"];
           [CNone; CStr "María López"; CStr "Club B"; CStr "Dama"; CStr "L-543";
            CStr "ESP"; CStr "23456789B"];
           [CNone; CStr "Carlos Ruiz"; CStr "Club A"; CNone; CStr "L-678";
            CStr "ESP"; CStr "34567890C"] ])].

Definition tiradores_header : list cell :=
  [CStr "id"; CStr "nombre"; CStr "club"; CStr "categoria"; CStr "licencia"; CStr "pais";
   CStr "dni"].

(** A shooter with a key and no name. *)
Definition tirador_sin_nombre : excel_file :=
  Xlsx [("Tiradores",
         [ tiradores_header;
           [CNone; CNone; CStr "Club A"; CStr "Senior"; CStr "L-123"; CStr "ESP";
            CStr "12345678A"] ])].

(** A shooter whose key is the text of Python's [None]. *)
Definition tirador_none : excel_file :=
  Xlsx [("Tiradores",
         [ tiradores_header;
           [CNone; CStr "Ana Vidal"; CStr "Club A"; CStr "Dama"; CStr "L-900"; CStr "ESP";
            CStr "None"] ])].

(** A shooter whose key is three spaces. *)
Definition tirador_en_blanco : excel_file :=
  Xlsx [("Tiradores",
         [ tiradores_header;
           [CNone; CStr "Ana Vidal"; CStr "Club A"; CStr "Dama"; CStr "L-900"; CStr "ESP";
            CStr "   "] ])].

(** Neither a name nor a key. *)
Definition tirador_sin_nada : excel_file :=
  Xlsx [("Tiradores",
         [ tiradores_header;
           [CNone; CNone; CStr "Club A"; CStr "Dama"; CStr "L-900"; CStr "ESP"; CNone] ])].

(** A shooter with no key at all. *)
Definition tirador_sin_dni : excel_file :=
  Xlsx [("Tiradores",
         [ tiradores_header;
           [CNone; CStr "Ana Vidal"; CStr "Club A"; CStr "Dama"; CStr "L-900"; CStr "ESP";
            CNone] ])].

(** The first shooter of [tiradores] at another club. *)
Definition tirador_cambiado : excel_file :=
  Xlsx [("Tiradores",
         [ tiradores_header;
           [CNone; CStr "Juan Pérez"; CStr "Club Z"; CStr "Veterano"; CStr "L-123";
            CStr "ESP"; CStr " 12345678A "] ])].

Definition inscripciones_header : list cell :=
  [CStr "competition"; CStr "squad"; CStr "dorsal"; CStr "shooter_dni"; CStr "shooter_id";
   CStr "nota"].

(** One row of the sheet [Inscripciones] for the squad S1 of Cup2024. *)
Definition inscripcion (dorsal shooter_dni : string) : list cell :=
  [CStr "Cup2024"; CStr "S1"; CStr dorsal; CStr shooter_dni; CNone; CNone].

Definition inscripciones : excel_file :=
  Xlsx [("Inscripciones",
         [ inscripciones_header;
           inscripcion "3" "34567890C";
           inscripcion "1" "12345678A";
           inscripcion "2" "23456789B" ])].

(** The dorsal 1, which is taken in Cup2024, for another shooter. *)
Definition inscripcion_repetida : excel_file :=
  Xlsx [("Inscripciones", [ inscripciones_header; inscripcion "1" "23456789B" ])].

Definition resultados_header : list cell :=
  [CStr "competition"; CStr "squad"; CStr "dorsal"; CStr "round"; CStr "hits";
   CStr "misses"; CStr "score"; CStr "detalle"].

(** One row of the sheet [Resultados] for the squad S1 of Cup2024. *)
Definition resultado (dorsal round hits : Z) : list cell :=
  [CStr "Cup2024"; CStr "S1"; CInt dorsal; CInt round; CInt hits; CInt (25 - hits);
   CInt hits; CNone].

(** Four rounds each: 95, 93 and 83 in all for the dorsals 1, 2 and 3. *)
Definition resultados : excel_file :=
  Xlsx [("Resultados",
         [ resultados_header;
           resultado 1 1 24; resultado 2 1 22; resultado 3 1 20;
           resultado 1 2 23; resultado 2 2 24; resultado 3 2 21;
           resultado 1 3 24; resultado 2 3 23; resultado 3 3 22;
           resultado 1 4 24; resultado 2 4 24; resultado 3 4 20 ])].

(** A good row, then a row whose hits are no number. *)
Definition resultados_malos : excel_file :=
  Xlsx [("Resultados",
         [ resultados_header;
           resultado 1 1 24;
           [CStr "Cup2024"; CStr "S1"; CInt 2; CInt 1; CStr "x"; CInt 3; CInt 22; CNone] ])].

(** A clock that reads the same instant at every call. *)
Definition utcnow (n : Z) : string := "2024-06-01T10:00:00".

Definition db_shooters : PerRound.store :=
  Conn.db_after (PerRound.import_shooters_from_excel tiradores PerRound.empty_db).

Definition db_inscribed : PerRound.store :=
  Conn.db_after (PerRound.import_inscriptions_from_excel inscripciones "Cup2024" db_shooters).

Definition db_results : PerRound.store :=
  Conn.db_after (PerRound.import_results_from_excel utcnow resultados "Cup2024" db_inscribed).

Definition kivy_tiradores : excel_file :=
  Xlsx [("Tiradores",
         [ [CStr "Nº"; CStr "Nombre"; CStr "Categoría"; CStr "Comunidad / País";
            CStr "Licencia"];
           [CInt 1; CStr "Juan Pérez"; CStr "Senior"; CStr "Andalucía"; CStr "ESP12345"];
           [CInt 2; CStr "María López"; CStr "Dama"; CStr "Galicia"; CStr "ESP54321"];
           [CInt 3; CStr "Carlos Ruiz"; CStr "Senior"; CStr "Valencia"; CStr "ESP67890"];
           [CInt 4; CStr "Ana Vidal"; CNone; CStr "Murcia"; CStr "ESP11111"] ])].

Definition kivy_header : list cell :=
  [CStr "Nº"; CStr "Nombre"; CStr "Categoría"; CStr "Comunidad / País"; CStr "Licencia"].

(** The first shooter of [kivy_tiradores] in another category. *)
Definition kivy_cambiado : excel_file :=
  Xlsx [("Tiradores",
         [ kivy_header;
           [CInt 7; CStr "Juan Pérez"; CStr "Veterano"; CStr "Andalucía"; CStr "ESP12345"] ])].

(** A licence and no name. *)
Definition kivy_sin_nombre : excel_file :=
  Xlsx [("Tiradores",
         [ kivy_header; [CInt 1; CNone; CStr "Senior"; CStr "Andalucía"; CStr "ESP12345"] ])].

Definition kivy_shooters : Kivy.store :=
  Conn.db_after (Kivy.import_shooters_from_excel kivy_tiradores Kivy.empty_db).

(** The totals 95, 93 and 83 of the first three shooters, one row each. *)
Definition kivy_db : Kivy.store :=
  Kivy.mk_store (Kivy.shooters kivy_shooters)
    [ Kivy.mk_result 1 3 0 (Some 83) (Some 83) "2024-06-01T10:00:00";
      Kivy.mk_result 2 1 0 (Some 95) (Some 95) "2024-06-01T10:00:00";
      Kivy.mk_result 3 2 0 (Some 93) (Some 93) "2024-06-01T10:00:00" ].

End Examples.

(** ** Paths and the files an operation writes *)

Module Files.

Import Py Excel.

(** [a.lower()] for one character.  Only the letters A to Z change: what
    is compared with a lowered text below is an ASCII suffix or prefix, and
    no character outside the ASCII range lowers into one of its letters. *)
Definition lower_ascii (a : ascii) : ascii :=
  let n := nat_of_ascii a in
  if ((65 <=? n) && (n <=? 90))%nat then ascii_of_nat (n + 32) else a.

(** [s.lower()]. *)
Fixpoint lower (s : string) : string :=
  match s with
  | EmptyString => EmptyString
  | String a s' => String (lower_ascii a) (lower s')
  end.

(** [s.startswith(p)]. *)
Definition startswith (s p : string) : bool := String.prefix p s.

(** [s.endswith(suffix)]: one of the tails of [s] is [suffix]. *)
Fixpoint endswith (s suffix : string) : bool :=
  (s =? suffix)%string ||
  match s with
  | EmptyString => false
  | String _ s' => endswith s' suffix
  end.

(** [s.replace(old, new)] for a text [old] that is not empty, from left to
    right: [skip] characters of a match just replaced are still to be
    dropped. *)
Fixpoint replace_from (old new : string) (skip : nat) (s : string) : string :=
  match s with
  | EmptyString => EmptyString
  | String a s' =>
      match skip with
      | S k => replace_from old new k s'
      | O =>
          if String.prefix old s
          then new ++ replace_from old new (String.length old - 1) s'
          else String a (replace_from old new O s')
      end
  end.

Definition replace (s old new : string) : string := replace_from old new 0 s.

(** [os.path.join(a, b)] where the separator is the slash. *)
Definition os_path_join (a b : string) : string :=
  if startswith b "/" then b
  else if (a =? "")%string || endswith a "/" then a ++ b
  else a ++ "/" ++ b.

(** A file as an operation writes it: a workbook with one sheet, saved
    under [path], or a CSV file.  The rows are those handed to [ws.append]
    and to [writer.writerow]; how the libraries lay them out in the file is
    not modelled, nor is an error of the file system. *)
Inductive written : Type :=
| Workbook (path : string) (title : string) (rows : sheet)
| Csv (path : string) (rows : sheet).

(** What [iter_rows(values_only=True)] reads where a cell was written: the
    value written, or nothing where an empty text was written (a workbook
    may keep no value for it). *)
Definition read_back (w r : cell) : Prop :=
  r = w \/ (w = CStr "" /\ r = CNone).

(** The file an import finds at the path of a written file.  The workbooks
    below are written by code that has openpyxl, under a path that ends in
    [.xlsx]; a CSV file is none the imports read. *)
Definition loads (w : written) (f : excel_file) : Prop :=
  match w with
  | Workbook _ title rows =>
      exists rows', f = Xlsx [(title, rows')] /\ Forall2 (Forall2 read_back) rows rows'
  | Csv _ _ => f = NoXlsx
  end.

End Files.

(** ** FedecatShooting.py: templates and export *)

Module PerRoundFiles.

Import Py Excel PyList Files PerRound.

(** *** create_templates *)

Definition tiradores_template : sheet :=
  [ [CStr "id"; CStr "nombre"; CStr "club"; CStr "categoria"; CStr "licencia"; CStr "pais";
     CStr "dni"];
    [CStr ""; CStr "Juan Pérez"; CStr "Club A"; CStr "Senior"; CStr "L-123"; CStr "ESP";
     CStr "12345678A"] ].

Definition inscripciones_template : sheet :=
  [ [CStr "competition"; CStr "squad"; CStr "dorsal"; CStr "shooter_dni"; CStr "shooter_id";
     CStr "nota"];
    [CStr "Mi Competición"; CStr "Escuadra 1"; CStr "1"; CStr "12345678A"; CStr "";
     CStr ""] ].

Definition resultados_template : sheet :=
  [ [CStr "competition"; CStr "squad"; CStr "dorsal"; CStr "round"; CStr "hits";
     CStr "misses"; CStr "score"; CStr "detalle"];
    [CStr "Mi Competición"; CStr "Escuadra 1"; CStr "1"; CStr "1"; CStr "24"; CStr "1";
     CStr "24"; CStr "1,1,1,0,1"] ].

(** [create_templates(output_dir)]: the files written, in the order they
    are written, and the line printed.  [excel_available] is the flag
    EXCEL_AVAILABLE. *)
Definition create_templates (excel_available : bool) (output_dir : string)
    : list written * list string :=
  let tiradores_path := os_path_join output_dir "Tiradores.xlsx" in
  let inscripciones_path := os_path_join output_dir "Inscripciones.xlsx" in
  let resultados_path := os_path_join output_dir "Resultados.xlsx" in
  if excel_available
  then ([ Workbook tiradores_path "Tiradores" tiradores_template;
          Workbook inscripciones_path "Inscripciones" inscripciones_template;
          Workbook resultados_path "Resultados" resultados_template ],
        [ "Plantillas creadas: " ++ tiradores_path ++ " " ++ inscripciones_path ++ " "
            ++ resultados_path ])
  else ([ Csv (replace tiradores_path ".xlsx" ".csv") tiradores_template;
          Csv (replace inscripciones_path ".xlsx" ".csv") inscripciones_template;
          Csv (replace resultados_path ".xlsx" ".csv") resultados_template ],
        [ "Openpyxl no está disponible. Generadas plantillas CSV en su lugar en el directorio." ]).

(** *** export_results_to_excel *)

Definition export_header : list cell :=
  [CStr "dorsal"; CStr "nombre"; CStr "club"; CStr "categoria"; CStr "total_hits";
   CStr "total_score"].

(** The dict appended to [rows] for one retrieved row: the category is the
    column as it is stored. *)
Definition export_row (s : store) (ex : entry * shooter) : dict :=
  let (e, x) := ex in
  let totals := select_totals (en_id e) s in
  [ ("dorsal", Sql.text_cell (en_dorsal e));
    ("nombre", CStr (sh_nombre x));
    ("club", Sql.text_cell (sh_club x));
    ("categoria", Sql.text_cell (sh_categoria x));
    ("total_hits", CInt (or_zero (fst totals)));
    ("total_score", CInt (or_zero (snd totals))) ].

(** The row written for a dict of [rows]. *)
Definition export_line (r : dict) : list cell :=
  [item r "dorsal"; item r "nombre"; item r "club"; item r "categoria";
   item r "total_hits"; item r "total_score"].

Definition export_rows (comp_id : Z) (s : store) : list dict :=
  map (export_row s) (select_entries comp_id s).

(** [export_results_to_excel(competition_name, out_path)] on the database
    [db], which it only reads: what it returns or raises, the file it
    writes, and the line it prints. *)
Definition export_results_to_excel (excel_available : bool)
    (competition_name out_path : string) (db : store)
    : (Z + exn) * list written * list string :=
  match select_competition competition_name db with
  | None => (inr (competition_not_found competition_name), [], [])
  | Some comp_id =>
      let rows := export_rows comp_id db in
      let lines := export_header :: map export_line rows in
      let n := Z.of_nat (List.length rows) in
      if excel_available && endswith (lower out_path) ".xlsx"
      then (inl n,
            [Workbook out_path "Resultados" lines],
            ["Resultados exportados a " ++ out_path ++ " (" ++ str_of_Z n ++ " filas)"])
      else
        let csv_path :=
          if endswith (lower out_path) ".csv" then out_path else out_path ++ ".csv" in
        (inl n,
         [Csv csv_path lines],
         ["Resultados exportados a CSV " ++ csv_path ++ " (" ++ str_of_Z n ++ " filas)"])
  end.

End PerRoundFiles.

(** ** What the tables of the per-round prototype keep *)

Module Integrity.

Import Py PerRound.

(** The primary keys: no id is that of two rows of a table. *)
Definition ids_unique (db : store) : Prop :=
  NoDup (map sh_id (shooters db)) /\
  NoDup (map co_id (competitions db)) /\
  NoDup (map sq_id (squads db)) /\
  NoDup (map en_id (entries db)) /\
  NoDup (map rr_id (round_results db)).

(** The constraint UNIQUE of the name of a competition. *)
Definition names_unique (db : store) : Prop :=
  NoDup (map co_nombre (competitions db)).

(** An entry refers to a shooter, to a competition, and to a squad of that
    competition. *)
Definition entry_ok (db : store) (e : entry) : Prop :=
  In (en_shooter_id e) (map sh_id (shooters db)) /\
  In (en_competition_id e) (map co_id (competitions db)) /\
  In (en_squad_id e, en_competition_id e)
     (map (fun q => (sq_id q, sq_competition_id q)) (squads db)).

Definition squad_ok (db : store) (q : squad) : Prop :=
  In (sq_competition_id q) (map co_id (competitions db)).

Definition round_result_ok (db : store) (r : round_result) : Prop :=
  In (rr_entry_id r) (map en_id (entries db)).

(** The foreign keys of the schema, which SQLite does not check on a
    connection opened as [get_conn] opens it. *)
Definition references (db : store) : Prop :=
  Forall (entry_ok db) (entries db) /\
  Forall (squad_ok db) (squads db) /\
  Forall (round_result_ok db) (round_results db).

(** A squad has a name, and no two squads of a competition have the same. *)
Definition squads_unique (db : store) : Prop :=
  (forall q, In q (squads db) -> sq_nombre q <> None) /\
  (forall q1 q2,
      In q1 (squads db) -> In q2 (squads db) ->
      sq_competition_id q1 = sq_competition_id q2 ->
      sq_nombre q1 = sq_nombre q2 ->
      q1 = q2).

Definition well_formed (db : store) : Prop :=
  ids_unique db /\ names_unique db /\ references db /\ squads_unique db.

(** The sums a ranking shows for an entry: hits and score. *)
Definition totals (db : store) (entry_id : Z) : Z * Z :=
  (or_zero (fst (select_totals entry_id db)), or_zero (snd (select_totals entry_id db))).

(** The entries of a competition. *)
Definition entries_of (comp_id : Z) (db : store) : list entry :=
  filter (fun e => en_competition_id e =? comp_id) (entries db).

(** What a shooter is known by through its life in the table. *)
Definition identity (x : shooter) : Z * option string := (sh_id x, sh_dni x).

(** The columns of a row of the sheet [Inscripciones] that the import
    reads, and those of a row of the sheet [Resultados]. *)
Definition inscription_columns : list string := ["shooter_dni"; "squad"; "dorsal"].

Definition result_columns : list string :=
  ["dorsal"; "round"; "hits"; "misses"; "score"; "detalle"].

(** Two rows, each under its header row, read the same in the columns
    [columns]. *)
Definition same_columns (columns : list string) (headers headers' : list cell)
    (row row' : list cell) : Prop :=
  forall k, In k columns -> data_get headers row k = data_get headers' row' k.

(** A round result with nothing in it. *)
Definition empty_round (r : round_result) : Prop :=
  rr_round_number r = 1 /\ rr_hits r = 0 /\ rr_misses r = 0 /\ rr_score r = 0.

End Integrity.

(** ** fede_shooting_kivy_prototype.py: templates and the import of results *)

Module KivyResults.

Import Py Excel Files.
Local Open Scope conn_scope.

(** *** create_templates *)

Definition tiradores_template : sheet :=
  [ [CStr "Nº"; CStr "Nombre"; CStr "Categoría"; CStr "Comunidad / País"; CStr "Licencia"];
    [CInt 1; CStr "Juan Pérez"; CStr "Senior"; CStr "Andalucía"; CStr "ESP12345"];
    [CInt 2; CStr "María López"; CStr "Dama"; CStr "Galicia"; CStr "ESP54321"];
    [CInt 3; CStr "Carlos Ruiz"; CStr "Veterano"; CStr "Valencia"; CStr "ESP67890"] ].

Definition resultados_template : sheet :=
  [ [CStr "Licencia"; CStr "Serie 1"; CStr "Serie 2"; CStr "Serie 3"; CStr "Serie 4";
     CStr "Total"];
    [CStr "ESP12345"; CInt 24; CInt 23; CInt 24; CInt 24; CInt 95];
    [CStr "ESP54321"; CInt 22; CInt 24; CInt 23; CInt 24; CInt 93];
    [CStr "ESP67890"; CInt 20; CInt 21; CInt 22; CInt 20; CInt 83] ].

(** [create_templates(outdir)]: the two paths it returns, or the error of
    a missing openpyxl, and the files written. *)
Definition create_templates (openpyxl : bool) (outdir : string)
    : (string * string + exn) * list written :=
  if openpyxl
  then
    let p1 := os_path_join outdir "Tiradores_v4.xlsx" in
    let p2 := os_path_join outdir "Resultados.xlsx" in
    (inl (p1, p2),
     [Workbook p1 "Tiradores" tiradores_template; Workbook p2 "Resultados" resultados_template])
  else
    (inr (RuntimeError "openpyxl no está instalado. Instala con: pip install openpyxl"), []).

(** *** The table [results] as the import fills it

    A row of [results] with the values that were bound to [hits] and
    [score].  The two columns are INTEGER columns: they hold an integer
    for an [int] or a [bool] and NULL for [None]; what they hold for a text
    depends on whether SQLite reads it as a number, and is not modelled. *)
Record bound_result : Type := mk_bound_result {
  br_id : Z;
  br_shooter_id : Z;
  br_serie : Z;
  br_hits : cell;
  br_score : cell;
  br_timestamp : string
}.

Record store : Type := mk_store {
  shooters : list Kivy.shooter;
  results : list bound_result
}.

Definition M := Conn.M store.

(** The integer or NULL an INTEGER column holds for a bound value that is
    no text. *)
Definition stored_int (c : cell) : option (option Z) :=
  match c with
  | CNone => Some None
  | CInt z => Some (Some z)
  | CBool b => Some (Some (if b then 1 else 0))
  | CStr _ => None
  end.

Definition stored_result (b : bound_result) : option Kivy.result :=
  match stored_int (br_hits b), stored_int (br_score b) with
  | Some h, Some s =>
      Some (Kivy.mk_result (br_id b) (br_shooter_id b) (br_serie b) h s (br_timestamp b))
  | _, _ => None
  end.

Fixpoint stored_results (l : list bound_result) : option (list Kivy.result) :=
  match l with
  | [] => Some []
  | b :: l' =>
      match stored_result b, stored_results l' with
      | Some r, Some rs => Some (r :: rs)
      | _, _ => None
      end
  end.

(** The database of [Kivy] that a database is when no text was bound. *)
Definition stored (s : store) : option Kivy.store :=
  option_map (Kivy.mk_store (shooters s)) (stored_results (results s)).

(** The other way round: an integer was bound as an [int]. *)
Definition bound (db : Kivy.store) : store :=
  mk_store (Kivy.shooters db)
    (map (fun r =>
            mk_bound_result (Kivy.re_id r) (Kivy.re_shooter_id r) (Kivy.re_serie r)
              (match Kivy.re_hits r with Some z => CInt z | None => CNone end)
              (match Kivy.re_score r with Some z => CInt z | None => CNone end)
              (Kivy.re_timestamp r))
         (Kivy.results db)).

(** *** import_results_from_excel *)

(** [isinstance(h,str) and h.lower().startswith("serie")]. *)
Definition is_serie (h : cell) : bool :=
  match h with
  | CStr s => startswith (lower s) "serie"
  | _ => false
  end.

(** The loop that collects [series_indices], from the column [i] on. *)
Fixpoint series_from (i : nat) (headers : list cell) : list nat :=
  match headers with
  | [] => []
  | h :: hs => if is_serie h then i :: series_from (S i) hs else series_from (S i) hs
  end.

Definition series_indices (headers : list cell) : list nat := series_from 0 headers.

(** [for si in series_indices: s += int(row[si] or 0)], from the sum [s]. *)
Fixpoint sum_series (row : list cell) (series : list nat) (s : Z) : Z + exn :=
  match series with
  | [] => inl s
  | si :: rest =>
      match Kivy.at_index row si with
      | inr e => inr e
      | inl c =>
          match int (py_or c (CInt 0)) with
          | inr e => inr e
          | inl z => sum_series row rest (s + z)
          end
      end
  end.

(** The total of a row: the cell of the column [Total] when there is one
    and it is not empty, else the sum of the series when there are series
    columns, else [None]. *)
Definition row_total (idx_total : option nat) (series : list nat) (row : list cell)
    : cell + exn :=
  match Kivy.at_optional row idx_total with
  | inr e => inr e
  | inl total =>
      match total, series with
      | CNone, _ :: _ =>
          match sum_series row series 0 with
          | inl s => inl (CInt s)
          | inr e => inr e
          end
      | _, _ => inl total
      end
  end.

(** [SELECT id FROM shooters WHERE licencia = ?] and [fetchone]. *)
Definition select_shooter_by_licencia (licencia : string) (s : store) : option Z :=
  option_map Kivy.sh_id (find (Kivy.has_licencia licencia) (shooters s)).

(** [INSERT INTO results (shooter_id, serie, hits, score, timestamp)
    VALUES (?,?,?,?,?)] with [(shooter_id, 0, total, total, ts)]. *)
Definition insert_result (shooter_id : Z) (total : cell) (ts : string) (s : store) : store :=
  mk_store (shooters s)
    (results s ++
       [mk_bound_result (Sql.next_id (map br_id (results s))) shooter_id 0 total total ts]).

(** The body of the loop over the data rows; [utcnow] is the clock, read
    once for each row that is stored. *)
Definition result_row (utcnow : Z -> string) (idx_lic : nat) (idx_total : option nat)
    (series : list nat) (row : list cell) (created : Z) : M Z :=
  lic <- Conn.lift (Kivy.at_index row idx_lic) ;;
  match lic with
  | CNone => Conn.ret created
  | _ =>
      let licencia := str lic in
      if (licencia =? "")%string then Conn.ret created
      else
        shooter <- Conn.query (select_shooter_by_licencia licencia) ;;
        match shooter with
        | None => Conn.ret created
        | Some shooter_id =>
            total <- Conn.lift (row_total idx_total series row) ;;
            Conn.execute (insert_result shooter_id total (utcnow created)) ;;;
            Conn.ret (created + 1)
        end
  end.

Fixpoint result_rows (utcnow : Z -> string) (idx_lic : nat) (idx_total : option nat)
    (series : list nat) (rows : list (list cell)) (created : Z) : M Z :=
  match rows with
  | [] => Conn.ret created
  | row :: rest =>
      c <- result_row utcnow idx_lic idx_total series row created ;;
      result_rows utcnow idx_lic idx_total series rest c
  end.

(** Here [NoXlsx] is a missing openpyxl, as for the shooters. *)
Definition import_results (utcnow : Z -> string) (f : excel_file) : M Z :=
  match f with
  | NoXlsx => Conn.raise (RuntimeError "openpyxl required")
  | Xlsx sheets =>
      match sheet_named "Resultados" sheets with
      | None => Conn.raise (RuntimeError "Hoja 'Resultados' no encontrada")
      | Some rows =>
          match rows with
          | [] => Conn.raise IndexError
          | headers :: data_rows =>
              match Kivy.index headers "Licencia" with
              | None => Conn.raise ValueError
              | Some idx_lic =>
                  let series := series_indices headers in
                  let idx_total := Kivy.index headers "Total" in
                  created <- result_rows utcnow idx_lic idx_total series data_rows 0 ;;
                  Conn.commit ;;;
                  Conn.ret created
              end
          end
      end
  end.

Definition import_results_from_excel (utcnow : Z -> string) (f : excel_file) (db : store) :=
  Conn.run (import_results utcnow f) db.

End KivyResults.

(** * Facts about the list and dict operations *)

Local Open Scope string_scope.
Local Open Scope Z_scope.
Local Open Scope list_scope.

Section SortedFacts.

Import PyList.

Context {A : Type}.
Variable key : A -> Z * Z.

Lemma key_ltb_false (a b : Z * Z) :
  key_ltb a b = false <-> fst b < fst a \/ (fst b = fst a /\ snd b <= snd a).
Proof.
  unfold key_ltb.
  destruct (Z.ltb_spec (fst a) (fst b)), (Z.eqb_spec (fst a) (fst b)),
    (Z.ltb_spec (snd a) (snd b)); simpl; split; intros; try discriminate; try lia; auto.
Qed.

Lemma key_ltb_true (a b : Z * Z) :
  key_ltb a b = true <-> fst a < fst b \/ (fst a = fst b /\ snd a < snd b).
Proof.
  unfold key_ltb.
  destruct (Z.ltb_spec (fst a) (fst b)), (Z.eqb_spec (fst a) (fst b)),
    (Z.ltb_spec (snd a) (snd b)); simpl; split; intros; try discriminate; try lia; auto.
Qed.

Lemma key_eqb_true (a b : Z * Z) : key_eqb a b = true <-> a = b.
Proof.
  unfold key_eqb. destruct a, b; simpl.
  rewrite andb_true_iff, !Z.eqb_eq. split; [intros []; congruence | intros [= -> ->]; auto].
Qed.

Lemma insert_perm (x : A) (l : list A) : Permutation (insert key x l) (x :: l).
Proof.
  induction l as [|y l IH]; simpl; [reflexivity|].
  destruct (key_ltb (key y) (key x)); [|reflexivity].
  rewrite IH. apply perm_swap.
Qed.

Lemma sorted_perm (l : list A) : Permutation (sorted key l) l.
Proof.
  induction l as [|x l IH]; simpl; [constructor|].
  rewrite insert_perm. now constructor.
Qed.

Lemma insert_sorted (x : A) (l : list A) :
  StronglySorted (key_le key) l -> StronglySorted (key_le key) (insert key x l).
Proof.
  induction 1 as [|y l Hl IH Hy]; simpl.
  - repeat constructor.
  - destruct (key_ltb (key y) (key x)) eqn:E.
    + constructor; [exact IH|].
      apply (Permutation_Forall (Permutation_sym (insert_perm x l))).
      constructor; [|exact Hy].
      unfold key_le in *. apply key_ltb_false. apply key_ltb_true in E. lia.
    + constructor; [constructor; assumption|].
      constructor; [exact E|].
      eapply Forall_impl; [|exact Hy].
      unfold key_le in *. intros z Hz. apply key_ltb_false in E, Hz. apply key_ltb_false. lia.
Qed.

Lemma sorted_sorted (l : list A) : StronglySorted (key_le key) (sorted key l).
Proof.
  induction l as [|x l IH]; simpl; [constructor|].
  now apply insert_sorted.
Qed.

(** Stability: the elements of any one key come out in the order they went in. *)
Lemma insert_stable (k : Z * Z) (x : A) (l : list A) :
  filter (fun y => key_eqb (key y) k) (insert key x l)
  = filter (fun y => key_eqb (key y) k) (x :: l).
Proof.
  induction l as [|y l IH]; [reflexivity|].
  cbn [insert].
  destruct (key_ltb (key y) (key x)) eqn:E; [|reflexivity].
  cbn [filter] in *. rewrite IH.
  destruct (key_eqb (key y) k) eqn:Ey, (key_eqb (key x) k) eqn:Ex; try reflexivity.
  apply key_eqb_true in Ey, Ex. rewrite Ey, Ex in E.
  apply key_ltb_true in E. lia.
Qed.

Lemma sorted_stable (k : Z * Z) (l : list A) :
  filter (fun y => key_eqb (key y) k) (sorted key l)
  = filter (fun y => key_eqb (key y) k) l.
Proof.
  induction l as [|x l IH]; [reflexivity|].
  cbn [sorted fold_right]. rewrite insert_stable.
  cbn [filter]. fold (sorted key l). now rewrite IH.
Qed.

End SortedFacts.

Section GroupFacts.

Import PyList.

Context {A : Type}.
Variable cat : A -> string.

Lemma group_of_setdefault (k k' : string) (x : A) (g : list (string * list A)) :
  group_of k' (setdefault_append k x g)
  = if (k =? k')%string then group_of k' g ++ [x] else group_of k' g.
Proof.
  induction g as [|[k0 l] g IH]; simpl.
  - destruct (k =? k')%string; reflexivity.
  - destruct (String.eqb_spec k0 k) as [->|Hk]; simpl.
    + destruct (String.eqb_spec k k'); reflexivity.
    + destruct (String.eqb_spec k0 k') as [->|Hk']; [|exact IH].
      destruct (String.eqb_spec k k'); congruence.
Qed.

Lemma keys_setdefault (k : string) (x : A) (g : list (string * list A)) :
  map fst (setdefault_append k x g)
  = if in_dec string_dec k (map fst g) then map fst g else map fst g ++ [k].
Proof.
  induction g as [|[k0 l] g IH]; simpl; [reflexivity|].
  destruct (String.eqb_spec k0 k) as [->|Hk]; simpl.
  - destruct (string_dec k k); [|congruence].
    reflexivity.
  - rewrite IH. destruct (string_dec k0 k); [congruence|].
    destruct (in_dec string_dec k (map fst g)); reflexivity.
Qed.

Lemma keys_setdefault_NoDup (k : string) (x : A) (g : list (string * list A)) :
  NoDup (map fst g) -> NoDup (map fst (setdefault_append k x g)).
Proof.
  intros H. rewrite keys_setdefault.
  destruct (in_dec string_dec k (map fst g)) as [|Hn]; [exact H|].
  apply NoDup_app; [exact H | repeat constructor; intros [] | ].
  intros y Hy [<-|[]]. contradiction.
Qed.

Lemma concat_setdefault (k : string) (x : A) (g : list (string * list A)) :
  Permutation (List.concat (map snd (setdefault_append k x g))) (x :: List.concat (map snd g)).
Proof.
  induction g as [|[k0 l] g IH]; simpl; [reflexivity|].
  destruct (k0 =? k)%string; simpl.
  - rewrite <- app_assoc. simpl.
    rewrite <- Permutation_middle. reflexivity.
  - rewrite IH. rewrite <- Permutation_middle. reflexivity.
Qed.

Lemma nonempty_setdefault (k : string) (x : A) (g : list (string * list A)) :
  Forall (fun p => snd p <> []) g ->
  Forall (fun p => snd p <> []) (setdefault_append k x g).
Proof.
  induction 1 as [|[k0 l] g Hl Hg IH]; simpl.
  - repeat constructor. discriminate.
  - destruct (k0 =? k)%string; constructor; simpl in *; auto.
    destruct l; discriminate.
Qed.

Lemma group_into_of (k : string) (l : list A) (g : list (string * list A)) :
  group_of k (group_into cat l g)
  = group_of k g ++ filter (fun x => (cat x =? k)%string) l.
Proof.
  revert g. induction l as [|x l IH]; intros g; simpl.
  - now rewrite app_nil_r.
  - unfold group_into in *. rewrite IH, group_of_setdefault.
    destruct (cat x =? k)%string; [now rewrite <- app_assoc | reflexivity].
Qed.

Lemma group_into_NoDup (l : list A) (g : list (string * list A)) :
  NoDup (map fst g) -> NoDup (map fst (group_into cat l g)).
Proof.
  revert g. induction l as [|x l IH]; intros g H; simpl; [exact H|].
  apply IH, keys_setdefault_NoDup, H.
Qed.

Lemma group_into_concat (l : list A) (g : list (string * list A)) :
  Permutation (List.concat (map snd (group_into cat l g))) (List.concat (map snd g) ++ l).
Proof.
  revert g. induction l as [|x l IH]; intros g; simpl.
  - now rewrite app_nil_r.
  - unfold group_into in *. rewrite IH, concat_setdefault.
    rewrite <- Permutation_middle. reflexivity.
Qed.

Lemma group_into_nonempty (l : list A) (g : list (string * list A)) :
  Forall (fun p => snd p <> []) g ->
  Forall (fun p => snd p <> []) (group_into cat l g).
Proof.
  revert g. induction l as [|x l IH]; intros g H; simpl; [exact H|].
  apply IH, nonempty_setdefault, H.
Qed.

Lemma group_of_In (k : string) (grp : list A) (g : list (string * list A)) :
  NoDup (map fst g) -> In (k, grp) g -> group_of k g = grp.
Proof.
  induction g as [|[k0 l] g IH]; simpl; [intros _ []|].
  intros Hnd [H|H].
  - injection H as -> ->. now rewrite String.eqb_refl.
  - inversion Hnd as [|? ? Hn Hnd']; subst.
    destruct (String.eqb_spec k0 k) as [->|]; [|now apply IH].
    exfalso. apply Hn. change k with (fst (k, grp)). now apply in_map.
Qed.

Lemma In_group_of (k : string) (g : list (string * list A)) :
  group_of k g <> [] -> In (k, group_of k g) g.
Proof.
  induction g as [|[k0 l] g IH]; simpl; [congruence|].
  destruct (String.eqb_spec k0 k) as [->|]; auto.
Qed.

(** The dict built from the empty one by the grouping loop: what is under
    each key, and what the keys are. *)
Lemma group_into_spec (l : list A) :
  let g := group_into cat l [] in
  NoDup (map fst g) /\
  (forall k grp, In (k, grp) g ->
     grp = filter (fun x => (cat x =? k)%string) l /\ grp <> []) /\
  (forall x, In x l -> exists grp, In (cat x, grp) g /\ In x grp) /\
  Permutation (List.concat (map snd g)) l.
Proof.
  intros g.
  assert (Hnd : NoDup (map fst g)) by (apply group_into_NoDup; constructor).
  assert (Hne : Forall (fun p => snd p <> []) g) by (apply group_into_nonempty; constructor).
  assert (Hof : forall k, group_of k g = filter (fun x => (cat x =? k)%string) l)
    by (intros k; unfold g; now rewrite group_into_of).
  repeat split.
  - exact Hnd.
  - rewrite <- Hof. symmetry. now apply group_of_In.
  - rewrite Forall_forall in Hne. apply (Hne (k, grp)). assumption.
  - intros x Hx.
    assert (Hin : In x (group_of (cat x) g)).
    { rewrite Hof. apply filter_In. split; [exact Hx | apply String.eqb_refl]. }
    exists (group_of (cat x) g). split; [|exact Hin].
    apply In_group_of. intros E. rewrite E in Hin. exact Hin.
  - apply (group_into_concat l []).
Qed.

Lemma enumerate_nth (l : list A) (start : Z) (i : nat) (p : Z) (x : A) :
  nth_error (enumerate start l) i = Some (p, x) ->
  p = start + Z.of_nat i /\ nth_error l i = Some x.
Proof.
  revert start i. induction l as [|y l IH]; intros start [|i]; simpl; try discriminate.
  - intros [= <- <-]. split; [lia | reflexivity].
  - intros H. apply IH in H as [-> H]. split; [lia | exact H].
Qed.

End GroupFacts.

(** * The ranking *)

Section Ranking.

Import Py PyList.

Lemma ranking_key_le (x y : dict) :
  key_le PerRound.ranking_key x y <-> PerRound.ranks_before x y.
Proof.
  unfold key_le, PerRound.ranks_before, PerRound.ranking_key,
    PerRound.total_score, PerRound.total_hits.
  rewrite key_ltb_false. simpl. lia.
Qed.

Lemma tied_key (score hits : Z) (x : dict) :
  PerRound.tied score hits x = key_eqb (PerRound.ranking_key x) (- score, - hits).
Proof.
  unfold PerRound.tied, key_eqb, PerRound.ranking_key, PerRound.total_score,
    PerRound.total_hits. simpl.
  f_equal; apply eq_true_iff_eq; rewrite !Z.eqb_eq; lia.
Qed.

Lemma standing_no_rounds (db : PerRound.store) (e : PerRound.entry) (x : PerRound.shooter) :
  (forall r, In r (PerRound.round_results db) -> PerRound.rr_entry_id r <> PerRound.en_id e) ->
  PerRound.total_score (PerRound.standing db (e, x)) = 0 /\
  PerRound.total_hits (PerRound.standing db (e, x)) = 0.
Proof.
  intros H.
  assert (E : filter (fun r => PerRound.rr_entry_id r =? PerRound.en_id e)
                (PerRound.round_results db) = []).
  { induction (PerRound.round_results db) as [|r rs IH]; [reflexivity|].
    simpl. destruct (Z.eqb_spec (PerRound.rr_entry_id r) (PerRound.en_id e)) as [E|_].
    - exfalso. apply (H r); [now left | exact E].
    - apply IH. intros r' Hr'. apply H. now right. }
  unfold PerRound.total_score, PerRound.total_hits, PerRound.standing,
    PerRound.select_totals.
  rewrite E. split; reflexivity.
Qed.

(** C3.  The flat ranking of a competition is the list of its standings
    sorted by total score, larger first, and among equal scores by total
    hits, larger first; the sort is stable, so the standings that tie on
    both come out in the order they were retrieved in.  An entry without
    round results stands with 0 hits and a score of 0.  With the totals 95,
    93 and 83 for the dorsals 1, 2 and 3 (retrieved in the order 3, 1, 2)
    the ranking is 1, 2, 3. *)
Theorem compute_rankings_sorted_stable :
  forall (db : PerRound.store) (name : string) (comp_id : Z),
    PerRound.select_competition name db = Some comp_id ->
    (exists l,
        PerRound.compute_rankings name false db = inl (PerRound.Flat l) /\
        Permutation l (PerRound.standings comp_id db) /\
        StronglySorted PerRound.ranks_before l /\
        (forall score hits,
            filter (PerRound.tied score hits) l
            = filter (PerRound.tied score hits) (PerRound.standings comp_id db))) /\
    (forall e x,
        In (e, x) (PerRound.select_entries comp_id db) ->
        (forall r, In r (PerRound.round_results db) ->
                   PerRound.rr_entry_id r <> PerRound.en_id e) ->
        In (PerRound.standing db (e, x)) (PerRound.standings comp_id db) /\
        PerRound.total_score (PerRound.standing db (e, x)) = 0 /\
        PerRound.total_hits (PerRound.standing db (e, x)) = 0) /\
    (exists l,
        PerRound.compute_rankings "Cup2024" false Examples.db_results
        = inl (PerRound.Flat l) /\
        map (fun x => item x "dorsal") (PerRound.standings 1 Examples.db_results)
        = [CStr "3"; CStr "1"; CStr "2"] /\
        map (fun x => (item x "dorsal", PerRound.total_score x)) l
        = [(CStr "1", 95); (CStr "2", 93); (CStr "3", 83)]).
Proof.
  intros db name comp_id Hc. split; [|split].
  - exists (sorted PerRound.ranking_key (PerRound.standings comp_id db)).
    unfold PerRound.compute_rankings. rewrite Hc. split; [reflexivity|].
    split; [apply sorted_perm|]. split.
    + generalize (sorted_sorted PerRound.ranking_key (PerRound.standings comp_id db)).
      induction 1 as [|x l Hl IH Hx]; constructor; [exact IH|].
      eapply Forall_impl; [|exact Hx]. intros y. apply ranking_key_le.
    + intros score hits.
      rewrite (filter_ext _ _ (tied_key score hits)).
      rewrite (filter_ext _ _ (tied_key score hits) (PerRound.standings comp_id db)).
      apply sorted_stable.
  - intros e x Hin Hr. split; [|now apply standing_no_rounds].
    unfold PerRound.standings. now apply in_map.
  - eexists. split; [|split]; vm_compute; reflexivity.
Qed.

(** The ranking of Cup2024 with its twelve round results. *)
Lemma compute_rankings_sorted_stable_witness :
  PerRound.select_competition "Cup2024" Examples.db_results = Some 1 /\
  exists l,
    PerRound.compute_rankings "Cup2024" false Examples.db_results = inl (PerRound.Flat l) /\
    Permutation l (PerRound.standings 1 Examples.db_results) /\
    StronglySorted PerRound.ranks_before l /\
    (forall score hits,
        filter (PerRound.tied score hits) l
        = filter (PerRound.tied score hits) (PerRound.standings 1 Examples.db_results)).
Proof.
  split; [reflexivity|].
  exact (proj1 (compute_rankings_sorted_stable Examples.db_results "Cup2024" 1 eq_refl)).
Defined.

Lemma group_into_partition {A} (cat : A -> string) (l : list A) :
  partition_by cat l (group_into cat l []).
Proof.
  destruct (group_into_spec cat l) as (Hnd & Hgrp & Hin & Hperm).
  unfold partition_by. split; [exact Hnd|]. split; [exact Hgrp|].
  split; [exact Hin|]. split; [|exact Hperm].
  intros k1 grp1 k2 grp2 x H1 H2 Hx1 Hx2.
  destruct (Hgrp _ _ H1) as [E1 _]. destruct (Hgrp _ _ H2) as [E2 _].
  assert (k1 = k2) as <-.
  { rewrite E1 in Hx1. rewrite E2 in Hx2.
    apply filter_In in Hx1 as [_ Hx1]. apply filter_In in Hx2 as [_ Hx2].
    apply String.eqb_eq in Hx1, Hx2. congruence. }
  split; congruence.
Qed.

Lemma categoria_missing (db : PerRound.store) (e : PerRound.entry) (x : PerRound.shooter) :
  PerRound.sh_categoria x = None \/ PerRound.sh_categoria x = Some "" ->
  PerRound.categoria (PerRound.standing db (e, x)) = "Sin categoría".
Proof.
  unfold PerRound.categoria, PerRound.standing. cbn [item String.eqb Ascii.eqb Bool.eqb].
  intros [-> | ->]; reflexivity.
Qed.

Lemma kivy_cat_missing (g : dict) :
  item g "categoria" = CNone \/ item g "categoria" = CStr "" ->
  Kivy.cat g = "Sin categoría".
Proof. unfold Kivy.cat. intros [-> | ->]; reflexivity. Qed.

(** C9.  Grouped by category, the standings are split among the groups:
    the keys are distinct, each group is the sub-sequence of the sorted
    standings that have its category, in their order, every standing is in
    the group of its category and in no other, and the groups together are
    the standings.  A missing or empty category goes under
    ["Sin categoría"].  This holds of the ranking of a competition and of
    the category map of the total-only prototype. *)
Theorem grouping_partitions_standings :
  forall (db : PerRound.store) (name : string) (comp_id : Z) (kdb : Kivy.store),
    PerRound.select_competition name db = Some comp_id ->
    (exists l g,
        PerRound.compute_rankings name false db = inl (PerRound.Flat l) /\
        PerRound.compute_rankings name true db = inl (PerRound.Grouped g) /\
        partition_by PerRound.categoria l g /\
        (forall e x,
            In (e, x) (PerRound.select_entries comp_id db) ->
            PerRound.sh_categoria x = None \/ PerRound.sh_categoria x = Some "" ->
            exists grp,
              In ("Sin categoría", grp) g /\ In (PerRound.standing db (e, x)) grp)) /\
    partition_by Kivy.cat (fst (Kivy.compute_rankings kdb)) (snd (Kivy.compute_rankings kdb)) /\
    (forall g,
        In g (fst (Kivy.compute_rankings kdb)) ->
        item g "categoria" = CNone \/ item g "categoria" = CStr "" ->
        exists grp, In ("Sin categoría", grp) (snd (Kivy.compute_rankings kdb)) /\ In g grp).
Proof.
  intros db name comp_id kdb Hc. split; [|split].
  - exists (sorted PerRound.ranking_key (PerRound.standings comp_id db)).
    exists (group_into PerRound.categoria
              (sorted PerRound.ranking_key (PerRound.standings comp_id db)) []).
    unfold PerRound.compute_rankings. rewrite Hc.
    split; [reflexivity|]. split; [reflexivity|].
    pose proof (group_into_partition PerRound.categoria
                  (sorted PerRound.ranking_key (PerRound.standings comp_id db))) as Hp.
    split; [exact Hp|].
    intros e x Hin Hcat. destruct Hp as (_ & _ & Hall & _).
    rewrite <- (categoria_missing db e x Hcat). apply Hall.
    apply (Permutation_in _ (Permutation_sym (sorted_perm _ _))).
    unfold PerRound.standings. now apply in_map.
  - apply group_into_partition.
  - intros g Hin Hcat.
    destruct (group_into_partition Kivy.cat (Kivy.general kdb)) as (_ & _ & Hall & _).
    rewrite <- (kivy_cat_missing g Hcat). now apply Hall.
Qed.

(** The groups of the ranking of Cup2024. *)
Lemma grouping_partitions_standings_witness :
  PerRound.select_competition "Cup2024" Examples.db_results = Some 1 /\
  exists l g,
    PerRound.compute_rankings "Cup2024" false Examples.db_results = inl (PerRound.Flat l) /\
    PerRound.compute_rankings "Cup2024" true Examples.db_results = inl (PerRound.Grouped g) /\
    partition_by PerRound.categoria l g.
Proof.
  split; [reflexivity|].
  destruct (proj1 (grouping_partitions_standings Examples.db_results "Cup2024" 1
                     Examples.kivy_db eq_refl)) as (l & g & H1 & H2 & H3 & _).
  exists l, g. split; [exact H1|]. split; [exact H2 | exact H3].
Defined.

Lemma kivy_puesto (pos : Z) (r : Kivy.shooter * Z) :
  item (Kivy.general_row (pos, r)) "puesto" = CInt pos.
Proof. destruct r. reflexivity. Qed.

Lemma kivy_general_nth (db : Kivy.store) (i : nat) (g : dict) :
  nth_error (Kivy.general db) i = Some g -> item g "puesto" = CInt (Z.of_nat i + 1).
Proof.
  unfold Kivy.general. rewrite nth_error_map.
  destruct (nth_error (enumerate 1 (Kivy.select_totals db)) i) as [[pos r]|] eqn:E;
    [|discriminate].
  cbn [option_map]. intros H.
  assert (g = Kivy.general_row (pos, r)) as -> by congruence.
  apply enumerate_nth in E as [-> _].
  rewrite kivy_puesto. f_equal. lia.
Qed.

(** C8, as amended.  In the total-only prototype every element of the
    general list carries under ["puesto"] its 1-based position in that
    list, and the elements of a category group are elements of the general
    list with that same [puesto]: the ranks of a group are the global ones
    and do not restart from 1.  The per-round prototype writes no rank into
    a standing: its keys are the dorsal, the name, the club, the category
    and the two totals. *)
Theorem kivy_rank_is_global_position :
  forall (db : Kivy.store) (pdb : PerRound.store),
    let general := fst (Kivy.compute_rankings db) in
    let cat_map := snd (Kivy.compute_rankings db) in
    (forall i g, nth_error general i = Some g -> item g "puesto" = CInt (Z.of_nat i + 1)) /\
    (forall c grp j g,
        In (c, grp) cat_map -> nth_error grp j = Some g ->
        exists i, nth_error general i = Some g /\ item g "puesto" = CInt (Z.of_nat i + 1)) /\
    map (fun cg => (fst cg, map (fun g => item g "puesto") (snd cg)))
        (snd (Kivy.compute_rankings Examples.kivy_db))
    = [("Senior", [CInt 1; CInt 3]); ("Dama", [CInt 2]); ("Sin categoría", [CInt 4])] /\
    (forall ex, map fst (PerRound.standing pdb ex)
                = ["dorsal"; "nombre"; "club"; "categoria"; "total_hits"; "total_score"]).
Proof.
  intros db pdb general cat_map. split; [|split; [|split]].
  - apply (kivy_general_nth db).
  - intros c grp j g Hin Hj.
    destruct (group_into_partition Kivy.cat (Kivy.general db)) as (_ & Hgrp & _).
    destruct (Hgrp c grp Hin) as [E _].
    assert (Hg : In g general).
    { apply nth_error_In in Hj. rewrite E in Hj. now apply filter_In in Hj as [Hj _]. }
    apply In_nth_error in Hg as [i Hi]. exists i. split; [exact Hi|].
    now apply (kivy_general_nth db).
  - vm_compute. reflexivity.
  - intros [e x]. reflexivity.
Qed.

(** C8 as stated fails on the per-round prototype: the first standing of
    the ranking of Cup2024 holds its rank, 1, under no key. *)
Lemma per_round_standing_without_rank :
  exists l x,
    PerRound.compute_rankings "Cup2024" false Examples.db_results = inl (PerRound.Flat l) /\
    nth_error l 0 = Some x /\
    forall k, item x k <> CInt 1.
Proof.
  eexists. eexists. split; [vm_compute; reflexivity|]. split; [reflexivity|].
  intros k. cbn [item].
  repeat match goal with
         | |- context [String.eqb ?a k] => destruct (String.eqb a k)
         end; discriminate.
Qed.

End Ranking.

(** * Facts about connections *)

Section ConnFacts.

Import Py Conn.

Context {store : Type}.

Lemma keeps_ret {A X} (p : world store -> X) (a : A) : keeps p (ret a).
Proof. intros w r w' [= <- <-]. reflexivity. Qed.

Lemma keeps_raise {A X} (p : world store -> X) (e : exn) : keeps p (@raise store A e).
Proof. intros w r w' [= <- <-]. reflexivity. Qed.

Lemma keeps_lift {A X} (p : world store -> X) (r : A + exn) : keeps p (lift r).
Proof. intros w r' w' [= <- <-]. reflexivity. Qed.

Lemma keeps_query {A X} (p : world store -> X) (q : store -> A) : keeps p (query q).
Proof. intros w r w' [= <- <-]. reflexivity. Qed.

Lemma keeps_print {X} (p : world store -> X) (line : string) :
  (forall w, p (mk_world (file w) (conn w) (stdout w ++ [line])) = p w) ->
  keeps p (print line).
Proof. intros H w r w' [= <- <-]. apply H. Qed.

Lemma keeps_execute {X} (p : world store -> X) (f : store -> store) :
  (forall w, p (mk_world (file w) (f (conn w)) (stdout w)) = p w) ->
  keeps p (execute f).
Proof. intros H w r w' [= <- <-]. apply H. Qed.

Lemma keeps_execute_checked {X} (p : world store -> X) (f : store -> store + exn) :
  (forall w s, f (conn w) = inl s -> p (mk_world (file w) s (stdout w)) = p w) ->
  keeps p (execute_checked f).
Proof.
  intros H w r w'. unfold execute_checked.
  destruct (f (conn w)) eqn:E; intros [= <- <-]; [now apply H | reflexivity].
Qed.

Lemma keeps_bind {A B X} (p : world store -> X) (m : M store A) (k : A -> M store B) :
  keeps p m -> (forall a, keeps p (k a)) -> keeps p (bind m k).
Proof.
  intros Hm Hk w r w'. unfold bind.
  destruct (m w) as [[a|e] w1] eqn:E.
  - intros H. rewrite (Hk a _ _ _ H). now apply (Hm _ _ _ E).
  - intros [= <- <-]. now apply (Hm _ _ _ E).
Qed.

Lemma framed_ret {A} (a : A) : framed (@ret store A a).
Proof. intros f c out. cbn. now rewrite app_nil_r. Qed.

Lemma framed_raise {A} (e : exn) : framed (@raise store A e).
Proof. intros f c out. cbn. now rewrite app_nil_r. Qed.

Lemma framed_lift {A} (r : A + exn) : framed (@lift store A r).
Proof. intros f c out. cbn. now rewrite app_nil_r. Qed.

Lemma framed_query {A} (q : store -> A) : framed (query q).
Proof. intros f c out. cbn. now rewrite app_nil_r. Qed.

Lemma framed_print (line : string) : framed (@print store line).
Proof. intros f c out. reflexivity. Qed.

Lemma framed_execute (g : store -> store) : framed (execute g).
Proof. intros f c out. cbn. now rewrite app_nil_r. Qed.

Lemma framed_execute_checked (g : store -> store + exn) : framed (execute_checked g).
Proof.
  intros f c out. unfold execute_checked. cbn.
  destruct (g c); cbn; now rewrite app_nil_r.
Qed.

Lemma framed_commit : framed (@commit store).
Proof. intros f c out. cbn. now rewrite app_nil_r. Qed.

Lemma framed_bind {A B} (m : M store A) (k : A -> M store B) :
  framed m -> (forall a, framed (k a)) -> framed (bind m k).
Proof.
  intros Hm Hk f c out. unfold bind. rewrite (Hm f c out).
  destruct (m (mk_world f c [])) as [[a|e] [f1 c1 out1]]; cbn [file conn stdout].
  - rewrite (Hk a f1 c1 (out ++ out1)), (Hk a f1 c1 out1).
    destruct (k a (mk_world f1 c1 [])) as [r [f2 c2 out2]]; cbn [file conn stdout].
    now rewrite app_assoc.
  - reflexivity.
Qed.

End ConnFacts.

(** Goals [keeps p m] and [framed m] for a computation written with the
    operations of a connection. *)
Ltac keeps_step :=
  match goal with
  | |- Conn.keeps _ (Conn.bind _ _) => apply keeps_bind; [|intros ?]
  | |- Conn.keeps _ (Conn.ret _) => apply keeps_ret
  | |- Conn.keeps _ (Conn.raise _) => apply keeps_raise
  | |- Conn.keeps _ (Conn.lift _) => apply keeps_lift
  | |- Conn.keeps _ (Conn.query _) => apply keeps_query
  | |- Conn.keeps _ (Conn.print _) => apply keeps_print; intros ?; reflexivity
  | |- Conn.keeps _ (Conn.execute _) => apply keeps_execute; intros ?; reflexivity
  | |- Conn.keeps _ (match ?x with _ => _ end) => destruct x
  end.

Ltac framed_step :=
  match goal with
  | |- Conn.framed (Conn.bind _ _) => apply framed_bind; [|intros ?]
  | |- Conn.framed (Conn.ret _) => apply framed_ret
  | |- Conn.framed (Conn.raise _) => apply framed_raise
  | |- Conn.framed (Conn.lift _) => apply framed_lift
  | |- Conn.framed (Conn.query _) => apply framed_query
  | |- Conn.framed (Conn.print _) => apply framed_print
  | |- Conn.framed (Conn.execute _) => apply framed_execute
  | |- Conn.framed (Conn.execute_checked _) => apply framed_execute_checked
  | |- Conn.framed Conn.commit => apply framed_commit
  | |- Conn.framed (match ?x with _ => _ end) => destruct x
  end.

Section PerRoundLoops.

Import Py Conn PerRound.

Lemma shooter_row_keeps_file headers row created :
  keeps file (shooter_row headers row created).
Proof.
  unfold shooter_row. repeat keeps_step.
  apply keeps_execute_checked. reflexivity.
Qed.

Lemma shooter_rows_keeps_file headers rows created :
  keeps file (shooter_rows headers rows created).
Proof.
  revert created. induction rows as [|row rows IH]; intros created; simpl.
  - apply keeps_ret.
  - apply keeps_bind; [apply shooter_row_keeps_file | intros c; apply IH].
Qed.

Lemma inscription_row_keeps_file comp_id headers row created :
  keeps file (inscription_row comp_id headers row created).
Proof. unfold inscription_row. repeat keeps_step. Qed.

Lemma inscription_rows_keeps_file comp_id headers rows created :
  keeps file (inscription_rows comp_id headers rows created).
Proof.
  revert created. induction rows as [|row rows IH]; intros created; simpl.
  - apply keeps_ret.
  - apply keeps_bind; [apply inscription_row_keeps_file | intros c; apply IH].
Qed.

Lemma inscription_row_keeps_shooters comp_id headers row created :
  keeps (fun w => shooters (conn w)) (inscription_row comp_id headers row created).
Proof. unfold inscription_row. repeat keeps_step. Qed.

Lemma inscription_row_keeps_competitions comp_id headers row created :
  keeps (fun w => competitions (conn w)) (inscription_row comp_id headers row created).
Proof. unfold inscription_row. repeat keeps_step. Qed.

Lemma inscription_rows_keeps_competitions comp_id headers rows created :
  keeps (fun w => competitions (conn w)) (inscription_rows comp_id headers rows created).
Proof.
  revert created. induction rows as [|row rows IH]; intros created; simpl.
  - apply keeps_ret.
  - apply keeps_bind; [apply inscription_row_keeps_competitions | intros c; apply IH].
Qed.

Lemma inscription_row_framed comp_id headers row created :
  framed (inscription_row comp_id headers row created).
Proof. unfold inscription_row. repeat framed_step. Qed.

Lemma inscription_rows_framed comp_id headers rows created :
  framed (inscription_rows comp_id headers rows created).
Proof.
  revert created. induction rows as [|row rows IH]; intros created; simpl.
  - apply framed_ret.
  - apply framed_bind; [apply inscription_row_framed | intros c; apply IH].
Qed.

Lemma result_row_keeps_file utcnow comp_id name headers row created :
  keeps file (result_row utcnow comp_id name headers row created).
Proof. unfold result_row. repeat keeps_step. Qed.

Lemma result_rows_keeps_file utcnow comp_id name headers rows created :
  keeps file (result_rows utcnow comp_id name headers rows created).
Proof.
  revert created. induction rows as [|row rows IH]; intros created; simpl.
  - apply keeps_ret.
  - apply keeps_bind; [apply result_row_keeps_file | intros c; apply IH].
Qed.

Lemma result_row_keeps_entries utcnow comp_id name headers row created :
  keeps (fun w => entries (conn w)) (result_row utcnow comp_id name headers row created).
Proof. unfold result_row. repeat keeps_step. Qed.

Lemma result_row_framed utcnow comp_id name headers row created :
  framed (result_row utcnow comp_id name headers row created).
Proof. unfold result_row. repeat framed_step. Qed.

Lemma result_rows_framed utcnow comp_id name headers rows created :
  framed (result_rows utcnow comp_id name headers rows created).
Proof.
  revert created. induction rows as [|row rows IH]; intros created; simpl.
  - apply framed_ret.
  - apply framed_bind; [apply result_row_framed | intros c; apply IH].
Qed.

End PerRoundLoops.

(** * The imports of the per-round prototype *)

Section SqlFacts.

Lemma max_id_nonneg (ids : list Z) : 0 <= fold_right Z.max 0 ids.
Proof. induction ids; simpl; lia. Qed.

Lemma max_id_app (ids : list Z) (x : Z) :
  fold_right Z.max 0 (ids ++ [x]) = Z.max (fold_right Z.max 0 ids) (Z.max x 0).
Proof. induction ids as [|a ids IH]; simpl; [|rewrite IH]; lia. Qed.

(** The id of a new row is the one [cur.lastrowid] reads after the insert. *)
Lemma last_id_next (ids : list Z) :
  fold_right Z.max 0 (ids ++ [Sql.next_id ids]) = Sql.next_id ids.
Proof.
  rewrite max_id_app. unfold Sql.next_id. pose proof (max_id_nonneg ids) as H.
  set (m := fold_right Z.max 0 ids) in *. clearbody m. lia.
Qed.

Lemma next_id_fresh (ids : list Z) (id : Z) : In id ids -> id < Sql.next_id ids.
Proof.
  unfold Sql.next_id. induction ids as [|a ids IH]; cbn [fold_right In]; [intros []|].
  intros [->|H]; [|apply IH in H]; lia.
Qed.

End SqlFacts.

Section PerRoundInscriptions.

Import Py Excel Conn PerRound.

Lemma inscription_row_entries comp_id headers row created w n w' :
  inscription_row comp_id headers row created w = (inl n, w') ->
  (n = created /\ entries (conn w') = entries (conn w)) \/
  (n = created + 1 /\
   exists e, entries (conn w') = entries (conn w) ++ [e] /\ en_competition_id e = comp_id).
Proof.
  unfold inscription_row, bind, lift, query, execute, print, ret.
  destruct (row_shooter_dni _) as [dni|e]; [|discriminate].
  destruct (dni_truthy dni); [|intros [= <- <-]; now left].
  destruct (select_shooter_by_dni _ _) as [shooter_id|]; [|intros [= <- <-]; now left].
  destruct (select_squad _ _ _) as [squad_id|]; intros [= <- <-]; right;
    (split; [reflexivity|]); eexists; split; reflexivity.
Qed.

Lemma inscription_rows_entries comp_id headers rows created w n w' :
  inscription_rows comp_id headers rows created w = (inl n, w') ->
  exists new,
    entries (conn w') = entries (conn w) ++ new /\
    Z.of_nat (List.length new) = n - created /\
    Forall (fun e => en_competition_id e = comp_id) new.
Proof.
  revert created w. induction rows as [|row rows IH]; intros created w; simpl.
  - intros [= <- <-]. exists []. rewrite app_nil_r. repeat split; [simpl; lia | constructor].
  - unfold bind.
    destruct (inscription_row comp_id headers row created w) as [[c|e] w1] eqn:E;
      [|discriminate].
    intros H. apply IH in H as (new & Hnew & Hlen & Hall).
    apply inscription_row_entries in E as [[-> E]|[-> (e & E & He)]].
    + exists new. rewrite Hnew, E. auto.
    + exists (e :: new). rewrite Hnew, E, <- app_assoc. simpl.
      repeat split; [lia | now constructor].
Qed.

Lemma inscription_row_returns comp_id headers row created w :
  (exists k, row_shooter_dni (data_get headers row "shooter_dni") = inl k) ->
  exists n w', inscription_row comp_id headers row created w = (inl n, w').
Proof.
  intros [k Hk]. unfold inscription_row, bind, lift, query, execute, print, ret.
  rewrite Hk. destruct (dni_truthy k); [|eauto].
  destruct (select_shooter_by_dni _ _); [|eauto].
  destruct (select_squad _ _ _); eauto.
Qed.

Lemma inscription_rows_return comp_id headers rows created w :
  Forall (fun row => exists k, row_shooter_dni (data_get headers row "shooter_dni") = inl k)
    rows ->
  exists n w', inscription_rows comp_id headers rows created w = (inl n, w').
Proof.
  intros H. revert created w. induction H as [|row rows Hrow _ IH]; intros created w; simpl.
  - unfold ret. eauto.
  - unfold bind.
    destruct (inscription_row_returns comp_id headers row created w Hrow) as (c & w1 & E).
    rewrite E. apply IH.
Qed.

Lemma find_app_none {A} (p : A -> bool) (l l' : list A) :
  find p l = None -> find p (l ++ l') = find p l'.
Proof.
  induction l as [|a l IH]; simpl; [reflexivity|].
  destruct (p a); [discriminate | exact IH].
Qed.

Lemma select_competition_new name db :
  select_competition name db = None ->
  select_competition name (insert_competition name db)
  = Some (Sql.next_id (map co_id (competitions db))).
Proof.
  unfold select_competition, insert_competition. cbn [competitions].
  destruct (find _ (competitions db)) eqn:E; [discriminate|]. intros _.
  rewrite (find_app_none _ _ _ E). cbn [find co_nombre].
  now rewrite String.eqb_refl.
Qed.

Lemma import_results_not_found utcnow f name db :
  select_competition name db = None ->
  import_results_from_excel utcnow f name db = (inr (competition_not_found name), db, []).
Proof.
  intros H. unfold import_results_from_excel, run, import_results, bind, query, raise.
  cbn [get_conn conn]. now rewrite H.
Qed.

(** C4.  When no competition bears the name, [import_results_from_excel]
    raises the error that says so, prints nothing and leaves the database as
    it was, whatever the file.  [import_inscriptions_from_excel] on a file
    with the sheet and its header row inserts the competition and goes
    through the rows: it returns when no row raises, and when it returns
    the database holds the competition under a new id, and the entries it
    counts, all of that competition, after the entries that were there. *)
Theorem results_need_the_competition_inscriptions_create_it :
  forall (utcnow : Z -> string) (f : excel_file) (name : string) (db : store),
    select_competition name db = None ->
    import_results_from_excel utcnow f name db
    = (inr (competition_not_found name), db, []) /\
    (forall sheets headers rows,
        f = Xlsx sheets ->
        sheet_named "Inscripciones" sheets = Some (headers :: rows) ->
        let o := import_inscriptions_from_excel f name db in
        let comp_id := Sql.next_id (map co_id (competitions db)) in
        (Forall (fun row =>
                   exists k, row_shooter_dni (data_get headers row "shooter_dni") = inl k)
                rows ->
         exists n, result o = inl n) /\
        (forall n,
            result o = inl n ->
            competitions (db_after o) = competitions db ++ [mk_competition comp_id name] /\
            select_competition name (db_after o) = Some comp_id /\
            exists new,
              entries (db_after o) = entries db ++ new /\
              Z.of_nat (List.length new) = n /\
              Forall (fun e => en_competition_id e = comp_id) new)).
Proof.
  intros utcnow f name db Hc. split; [now apply import_results_not_found|].
  intros sheets headers rows -> Hs o comp_id.
  assert (Ho : o = let '(r, w) :=
                (created <- inscription_rows comp_id headers rows 0 ;;
                 commit ;;;
                 print ("Inscripciones importadas: " ++ str_of_Z created) ;;;
                 ret created)%conn
                  (mk_world db (insert_competition name db) []) in
              (r, file w, stdout w)).
  { unfold o, import_inscriptions_from_excel, run, import_inscriptions.
    unfold bind at 1. unfold query at 1. cbn [get_conn conn]. rewrite Hc.
    unfold bind at 1. unfold bind at 1. unfold execute at 1. cbn [file conn stdout].
    unfold query at 1. cbn [conn]. rewrite Hs.
    unfold last_competition_id, insert_competition at 1. cbn [competitions].
    rewrite map_app. cbn [map co_id]. rewrite last_id_next. reflexivity. }
  unfold bind, commit, print, ret in Ho.
  destruct (inscription_rows comp_id headers rows 0 (mk_world db (insert_competition name db) []))
    as [[n|e] w] eqn:E; cbn [file conn stdout] in Ho.
  - split; [intros _; exists n; now rewrite Ho|].
    intros n'. rewrite Ho. cbn [result db_after fst snd]. intros [= <-].
    pose proof (inscription_rows_keeps_competitions _ _ _ _ _ _ _ E) as Hk.
    cbn [conn] in Hk.
    apply inscription_rows_entries in E as (new & Hnew & Hlen & Hall). cbn [conn] in Hnew.
    split; [exact Hk|]. split.
    + unfold select_competition. rewrite Hk. now apply select_competition_new.
    + exists new. repeat split; [exact Hnew | lia | exact Hall].
  - split; [|rewrite Ho; discriminate].
    intros Hall.
    destruct (inscription_rows_return comp_id headers rows 0
                (mk_world db (insert_competition name db) []) Hall) as (n & w' & E').
    congruence.
Qed.

End PerRoundInscriptions.

Section PerRoundImports.

Import Py Excel Conn PerRound.

Lemma import_results_failure utcnow f name w e w' :
  import_results utcnow f name w = (inr e, w') -> file w' = file w.
Proof.
  unfold import_results, bind, query, raise, commit, print, ret.
  destruct (select_competition name (conn w)) as [comp_id|]; [|now intros [= _ <-]].
  destruct f as [|sheets]; [now intros [= _ <-]|].
  destruct (sheet_named "Resultados" sheets) as [[|headers rows]|];
    try (now intros [= _ <-]).
  destruct (result_rows utcnow comp_id name headers rows 0 w) as [[n|e'] w1] eqn:E;
    [discriminate|].
  intros [= _ <-]. exact (result_rows_keeps_file _ _ _ _ _ _ _ _ _ E).
Qed.

Lemma import_shooters_failure f w e w' :
  import_shooters f w = (inr e, w') -> file w' = file w.
Proof.
  unfold import_shooters, bind, raise, commit, print, ret.
  destruct f as [|sheets]; [now intros [= _ <-]|].
  destruct (sheet_named "Tiradores" sheets) as [[|headers rows]|];
    try (now intros [= _ <-]).
  destruct (shooter_rows headers rows 0 w) as [[n|e'] w1] eqn:E; [discriminate|].
  intros [= _ <-]. exact (shooter_rows_keeps_file _ _ _ _ _ _ E).
Qed.

Lemma import_inscriptions_failure f name w e w' :
  import_inscriptions f name w = (inr e, w') -> file w' = file w.
Proof.
  unfold import_inscriptions. unfold bind at 1. unfold query at 1. unfold bind at 1.
  destruct (match select_competition name (conn w) with
            | Some id => ret id
            | None => _
            end w) as [[comp_id|e0] w0] eqn:E0.
  - assert (H0 : file w0 = file w).
    { destruct (select_competition name (conn w));
        [now injection E0 as _ <-|].
      unfold bind, execute, query in E0. now injection E0 as _ <-. }
    rewrite <- H0. unfold bind, raise, commit, print, ret.
    destruct f as [|sheets]; [now intros [= _ <-]|].
    destruct (sheet_named "Inscripciones" sheets) as [[|headers rows]|];
      try (now intros [= _ <-]).
    destruct (inscription_rows comp_id headers rows 0 w0) as [[n|e'] w1] eqn:E;
      [discriminate|].
    intros [= _ <-]. exact (inscription_rows_keeps_file _ _ _ _ _ _ _ E).
  - destruct (select_competition name (conn w)); [discriminate E0|].
    unfold bind, execute, query in E0. discriminate E0.
Qed.

(** C6, as amended.  A call of an import that raises, at whatever row,
    leaves the database as it was before the call: the rows its earlier
    iterations stored were stored on the connection, whose one [commit]
    stands after the loop and was not reached.  This holds of the import of
    results and of the imports of shooters and of inscriptions. *)
Theorem failed_import_leaves_database :
  forall (utcnow : Z -> string) (f : excel_file) (name : string) (db : store) (e : exn),
    (result (import_results_from_excel utcnow f name db) = inr e ->
     db_after (import_results_from_excel utcnow f name db) = db) /\
    (result (import_shooters_from_excel f db) = inr e ->
     db_after (import_shooters_from_excel f db) = db) /\
    (result (import_inscriptions_from_excel f name db) = inr e ->
     db_after (import_inscriptions_from_excel f name db) = db).
Proof.
  intros utcnow f name db e. split; [|split].
  - unfold import_results_from_excel, run, result, db_after.
    destruct (import_results utcnow f name (get_conn db)) as [r w] eqn:E. cbn.
    intros ->. exact (import_results_failure _ _ _ _ _ _ E).
  - unfold import_shooters_from_excel, run, result, db_after.
    destruct (import_shooters f (get_conn db)) as [r w] eqn:E. cbn.
    intros ->. exact (import_shooters_failure _ _ _ _ E).
  - unfold import_inscriptions_from_excel, run, result, db_after.
    destruct (import_inscriptions f name (get_conn db)) as [r w] eqn:E. cbn.
    intros ->. exact (import_inscriptions_failure _ _ _ _ _ E).
Qed.

(** C7.  For a row of the sheet [Resultados] whose entry is found and whose
    numbers are read as [round_number], [hits], [misses] and [score], the
    row stores one round result that carries exactly these four values
    (with the detail and the reading of the clock) and counts one more; a
    missing round reads 1, missing hits and misses read 0, and a missing
    score reads the hits of the row.  (Missing is a column that is not there
    or an empty cell, both [None]; what [or] takes for missing is any falsy
    value.) *)
Theorem result_row_defaults :
  forall (utcnow : Z -> string) (comp_id : Z) (name : string) (headers row : list cell)
         (created : Z) (w : world store) (entry_id round_number hits misses score : Z),
    select_entry comp_id (dorsal_text (data_get headers row "dorsal")) (conn w)
    = Some entry_id ->
    int_or (data_get headers row "round") 1 = inl round_number ->
    int_or (data_get headers row "hits") 0 = inl hits ->
    int_or (data_get headers row "misses") 0 = inl misses ->
    int_or (data_get headers row "score") hits = inl score ->
    (exists w',
        result_row utcnow comp_id name headers row created w = (inl (created + 1), w') /\
        file w' = file w /\
        round_results (conn w')
        = round_results (conn w) ++
            [mk_round_result (Sql.next_id (map rr_id (round_results (conn w)))) entry_id
               round_number hits misses score
               (Some (str (data_get headers row "detalle"))) (utcnow created)]) /\
    (truthy (data_get headers row "round") = false -> round_number = 1) /\
    (truthy (data_get headers row "hits") = false -> hits = 0) /\
    (truthy (data_get headers row "misses") = false -> misses = 0) /\
    (truthy (data_get headers row "score") = false -> score = hits).
Proof.
  intros utcnow comp_id name headers row created w entry_id r h m s He Hr Hh Hm Hs.
  split.
  - eexists. unfold result_row, bind, query, lift, execute, ret.
    rewrite He, Hr, Hh, Hm, Hs. split; [reflexivity|]. split; reflexivity.
  - unfold int_or, py_or in *.
    repeat split; intros E; rewrite E in *; cbn in *; congruence.
Qed.

End PerRoundImports.

Section PerRoundSkips.

Import Py Excel Conn PerRound.

Lemma dni_truthy_some (k : string) : k <> "" -> dni_truthy (Some k) = true.
Proof. intros H. simpl. now destruct (String.eqb_spec k ""). Qed.

(** A row whose shooter is not in the table: a warning, and nothing else. *)
Lemma inscription_row_unknown comp_id headers row created w k :
  row_shooter_dni (data_get headers row "shooter_dni") = inl (Some k) ->
  k <> "" ->
  select_shooter_by_dni k (conn w) = None ->
  inscription_row comp_id headers row created w
  = (inl created, mk_world (file w) (conn w) (stdout w ++ [shooter_not_found k])).
Proof.
  intros Hk Hne Hs. unfold inscription_row, bind, lift, query, print, ret.
  now rewrite Hk, (dni_truthy_some k Hne), Hs.
Qed.

Lemma select_shooter_same_table k (s s' : store) :
  shooters s = shooters s' -> select_shooter_by_dni k s = select_shooter_by_dni k s'.
Proof. unfold select_shooter_by_dni. now intros ->. Qed.

Lemma select_entry_same_table comp_id d (s s' : store) :
  entries s = entries s' -> select_entry comp_id d s = select_entry comp_id d s'.
Proof. unfold select_entry. now intros ->. Qed.

(** Two runs that differ by a line printed before them. *)
Lemma framed_after_print {A} (m : Conn.M store A) (w : world store) (line : string) :
  framed m ->
  let '(r, w1) := m (mk_world (file w) (conn w) (stdout w ++ [line])) in
  let '(r', w1') := m w in
  r = r' /\ file w1 = file w1' /\ conn w1 = conn w1' /\ In line (stdout w1).
Proof.
  intros Hm. destruct w as [f c out]. cbn [file conn stdout].
  rewrite (Hm f c (out ++ [line])), (Hm f c out).
  destruct (m (mk_world f c [])) as [r [f1 c1 out1]]. cbn [file conn stdout].
  repeat split. apply in_or_app. left. apply in_or_app. right. now left.
Qed.

Lemma inscription_rows_skip comp_id headers before row after k :
  row_shooter_dni (data_get headers row "shooter_dni") = inl (Some k) ->
  k <> "" ->
  forall created w,
    select_shooter_by_dni k (conn w) = None ->
    let '(r, w1) := inscription_rows comp_id headers (before ++ row :: after) created w in
    let '(r', w1') := inscription_rows comp_id headers (before ++ after) created w in
    r = r' /\ file w1 = file w1' /\ conn w1 = conn w1' /\
    (forall n, r = inl n -> In (shooter_not_found k) (stdout w1)).
Proof.
  intros Hk Hne. induction before as [|b before IH]; intros created w Hs.
  - cbn [app inscription_rows]. unfold bind at 1.
    rewrite (inscription_row_unknown _ _ _ _ _ _ Hk Hne Hs).
    pose proof (framed_after_print (inscription_rows comp_id headers after created) w
                  (shooter_not_found k) (inscription_rows_framed _ _ _ _)) as H.
    destruct (inscription_rows comp_id headers after created (mk_world _ _ _)) as [r w1].
    destruct (inscription_rows comp_id headers after created w) as [r' w1'].
    destruct H as (H1 & H2 & H3 & H4). auto.
  - cbn [app inscription_rows]. unfold bind.
    destruct (inscription_row comp_id headers b created w) as [[c|e] wb] eqn:E.
    + apply IH.
      rewrite (select_shooter_same_table k (conn wb) (conn w)); [exact Hs|].
      exact (inscription_row_keeps_shooters _ _ _ _ _ _ _ E).
    + repeat split. discriminate.
Qed.

Lemma result_row_unknown utcnow comp_id name headers row created w :
  select_entry comp_id (dorsal_text (data_get headers row "dorsal")) (conn w) = None ->
  result_row utcnow comp_id name headers row created w
  = (inl created,
     mk_world (file w) (conn w)
       (stdout w ++ [entry_not_found (dorsal_text (data_get headers row "dorsal")) name])).
Proof.
  intros Hs. unfold result_row, bind, query, print, ret. now rewrite Hs.
Qed.

Lemma result_rows_skip utcnow comp_id name headers before row after :
  forall created w,
    select_entry comp_id (dorsal_text (data_get headers row "dorsal")) (conn w) = None ->
    let '(r, w1) :=
      result_rows utcnow comp_id name headers (before ++ row :: after) created w in
    let '(r', w1') := result_rows utcnow comp_id name headers (before ++ after) created w in
    r = r' /\ file w1 = file w1' /\ conn w1 = conn w1' /\
    (forall n, r = inl n ->
       In (entry_not_found (dorsal_text (data_get headers row "dorsal")) name) (stdout w1)).
Proof.
  induction before as [|b before IH]; intros created w Hs.
  - cbn [app result_rows]. unfold bind at 1.
    rewrite (result_row_unknown _ _ _ _ _ _ _ Hs).
    pose proof (framed_after_print (result_rows utcnow comp_id name headers after created) w
                  (entry_not_found (dorsal_text (data_get headers row "dorsal")) name)
                  (result_rows_framed _ _ _ _ _ _)) as H.
    destruct (result_rows utcnow comp_id name headers after created (mk_world _ _ _))
      as [r w1].
    destruct (result_rows utcnow comp_id name headers after created w) as [r' w1'].
    destruct H as (H1 & H2 & H3 & H4). auto.
  - cbn [app result_rows]. unfold bind.
    destruct (result_row utcnow comp_id name headers b created w) as [[c|e] wb] eqn:E.
    + apply IH.
      rewrite (select_entry_same_table _ _ (conn wb) (conn w)); [exact Hs|].
      exact (result_row_keeps_entries _ _ _ _ _ _ _ _ _ E).
    + repeat split. discriminate.
Qed.

(** A call as its loop and what follows it: nothing after an exception,
    else the commit, the line that tells the count, and the count. *)
Lemma import_inscriptions_rows name db :
  exists comp_id c1,
    shooters c1 = shooters db /\
    forall sheets headers rows,
      sheet_named "Inscripciones" sheets = Some (headers :: rows) ->
      import_inscriptions (Xlsx sheets) name (get_conn db)
      = let '(r, w1) := inscription_rows comp_id headers rows 0 (mk_world db c1 []) in
        match r with
        | inl created =>
            (commit ;;;
             print ("Inscripciones importadas: " ++ str_of_Z created)%string ;;;
             ret created)%conn w1
        | inr e => (inr e, w1)
        end.
Proof.
  unfold import_inscriptions.
  destruct (select_competition name db) as [cid|] eqn:E.
  - exists cid, db. split; [reflexivity|].
    intros sheets headers rows Hs.
    unfold bind at 1. unfold query at 1. cbn [get_conn conn]. rewrite E.
    unfold bind at 1. unfold ret at 1. rewrite Hs. unfold bind at 1.
    now destruct (inscription_rows cid headers rows 0 _) as [[a|e] w1].
  - exists (last_competition_id (insert_competition name db)), (insert_competition name db).
    split; [reflexivity|].
    intros sheets headers rows Hs.
    unfold bind at 1. unfold query at 1. cbn [get_conn conn]. rewrite E.
    unfold bind at 1. unfold bind at 1. unfold execute at 1. cbn [file conn stdout].
    unfold query at 1. cbn [conn]. rewrite Hs. unfold bind at 1.
    now destruct (inscription_rows _ headers rows 0 _) as [[a|e] w1].
Qed.

Lemma import_results_rows utcnow name db comp_id sheets headers rows :
  select_competition name db = Some comp_id ->
  sheet_named "Resultados" sheets = Some (headers :: rows) ->
  import_results utcnow (Xlsx sheets) name (get_conn db)
  = let '(r, w1) := result_rows utcnow comp_id name headers rows 0 (get_conn db) in
    match r with
    | inl created =>
        (commit ;;;
         print ("Resultados importados: " ++ str_of_Z created)%string ;;;
         ret created)%conn w1
    | inr e => (inr e, w1)
    end.
Proof.
  intros Hc Hs. unfold import_results.
  unfold bind at 1. unfold query at 1. cbn [get_conn conn]. rewrite Hc, Hs.
  unfold bind at 1.
  now destruct (result_rows utcnow comp_id name headers rows 0 _) as [[a|e] w1].
Qed.

(** C5.  A row of the sheet [Inscripciones] whose key is that of no
    shooter, and a row of the sheet [Resultados] whose dorsal is that of no
    entry of the competition, are skipped with a warning.  In the loop, such
    a row leaves the connection and the count as they are, prints the
    warning, and the loop goes on with the rows after it.  For the whole
    call, a sheet with such a row anywhere among its rows gives the result
    (the count, or the exception of another row) and the database of the
    sheet without it, and a call that returns has printed the warning. *)
Theorem unknown_references_are_skipped :
  forall (utcnow : Z -> string) (db : store) (name : string) (headers row : list cell)
         (before after : list (list cell)) (sheets sheets' : list (string * sheet)),
    (forall k,
        sheet_named "Inscripciones" sheets = Some (headers :: before ++ row :: after) ->
        sheet_named "Inscripciones" sheets' = Some (headers :: before ++ after) ->
        row_shooter_dni (data_get headers row "shooter_dni") = inl (Some k) ->
        k <> "" ->
        select_shooter_by_dni k db = None ->
        let o := import_inscriptions_from_excel (Xlsx sheets) name db in
        let o' := import_inscriptions_from_excel (Xlsx sheets') name db in
        (forall comp_id created w,
            shooters (conn w) = shooters db ->
            inscription_rows comp_id headers (row :: after) created w
            = inscription_rows comp_id headers after created
                (mk_world (file w) (conn w) (stdout w ++ [shooter_not_found k]))) /\
        result o = result o' /\
        db_after o = db_after o' /\
        (forall n, result o = inl n -> In (shooter_not_found k) (printed o))) /\
    (forall comp_id,
        sheet_named "Resultados" sheets = Some (headers :: before ++ row :: after) ->
        sheet_named "Resultados" sheets' = Some (headers :: before ++ after) ->
        select_competition name db = Some comp_id ->
        select_entry comp_id (dorsal_text (data_get headers row "dorsal")) db = None ->
        let warning := entry_not_found (dorsal_text (data_get headers row "dorsal")) name in
        let o := import_results_from_excel utcnow (Xlsx sheets) name db in
        let o' := import_results_from_excel utcnow (Xlsx sheets') name db in
        (forall created w,
            entries (conn w) = entries db ->
            result_rows utcnow comp_id name headers (row :: after) created w
            = result_rows utcnow comp_id name headers after created
                (mk_world (file w) (conn w) (stdout w ++ [warning]))) /\
        result o = result o' /\
        db_after o = db_after o' /\
        (forall n, result o = inl n -> In warning (printed o))).
Proof.
  intros utcnow db name headers row before after sheets sheets'. split.
  - intros k Hs Hs' Hk Hne Hu o o'. split.
    { intros comp_id created w Hw. cbn [inscription_rows]. unfold bind at 1.
      rewrite (inscription_row_unknown _ _ _ _ _ _ Hk Hne); [reflexivity|].
      rewrite <- Hu. now apply select_shooter_same_table. }
    destruct (import_inscriptions_rows name db) as (comp_id & c1 & Hsh & Hrows).
    unfold o, o', import_inscriptions_from_excel, run.
    rewrite (Hrows _ _ _ Hs), (Hrows _ _ _ Hs').
    assert (Hu1 : select_shooter_by_dni k (conn (mk_world db c1 [])) = None).
    { rewrite <- Hu. now apply select_shooter_same_table. }
    pose proof (inscription_rows_skip comp_id headers before row after k Hk Hne 0 _ Hu1) as H.
    destruct (inscription_rows comp_id headers (before ++ row :: after) 0 _) as [r w1].
    destruct (inscription_rows comp_id headers (before ++ after) 0 _) as [r' w1'].
    destruct H as (Hr & Hf & Hc & Hin).
    subst r'. unfold bind, commit, print, ret.
    destruct r as [a|e]; cbn [result db_after printed fst snd file conn stdout].
    + repeat split; [exact Hc|]. intros n _. apply in_or_app. left. now apply (Hin a).
    + repeat split; [exact Hf | discriminate].
  - intros comp_id Hs Hs' Hc Hu warning o o'. split.
    { intros created w Hw. cbn [result_rows]. unfold bind at 1.
      rewrite result_row_unknown; [reflexivity|].
      rewrite <- Hu. now apply select_entry_same_table. }
    unfold o, o', import_results_from_excel, run.
    rewrite (import_results_rows _ _ _ _ _ _ _ Hc Hs),
      (import_results_rows _ _ _ _ _ _ _ Hc Hs').
    pose proof (result_rows_skip utcnow comp_id name headers before row after 0
                  (get_conn db) Hu) as H.
    destruct (result_rows utcnow comp_id name headers (before ++ row :: after) 0 _)
      as [r w1].
    destruct (result_rows utcnow comp_id name headers (before ++ after) 0 _) as [r' w1'].
    destruct H as (Hr & Hf & Hc' & Hin).
    subst r'. unfold bind, commit, print, ret.
    destruct r as [a|e]; cbn [result db_after printed fst snd file conn stdout].
    + repeat split; [exact Hc'|]. intros n _. apply in_or_app. left. now apply (Hin a).
    + repeat split; [exact Hf | discriminate].
Qed.

End PerRoundSkips.

Section PerRoundDorsal.

Import Py Excel Conn PerRound.

Lemma import_inscriptions_known name db comp_id sheets headers rows :
  select_competition name db = Some comp_id ->
  sheet_named "Inscripciones" sheets = Some (headers :: rows) ->
  import_inscriptions (Xlsx sheets) name (get_conn db)
  = let '(r, w1) := inscription_rows comp_id headers rows 0 (get_conn db) in
    match r with
    | inl created =>
        (commit ;;;
         print ("Inscripciones importadas: " ++ str_of_Z created)%string ;;;
         ret created)%conn w1
    | inr e => (inr e, w1)
    end.
Proof.
  intros Hc Hs. unfold import_inscriptions.
  unfold bind at 1. unfold query at 1. cbn [get_conn conn]. rewrite Hc.
  unfold bind at 1. unfold ret at 1. rewrite Hs. unfold bind at 1.
  now destruct (inscription_rows comp_id headers rows 0 _) as [[a|e] w1].
Qed.

(** A row whose shooter is in the table: one more entry, whatever the
    entries already there. *)
Lemma inscription_row_known comp_id headers row created w k shooter_id :
  row_shooter_dni (data_get headers row "shooter_dni") = inl (Some k) ->
  k <> "" ->
  select_shooter_by_dni k (conn w) = Some shooter_id ->
  exists squad_id c',
    inscription_row comp_id headers row created w
    = (inl (created + 1), mk_world (file w) c' (stdout w)) /\
    entries c'
    = entries (conn w) ++
        [mk_entry (Sql.next_id (map en_id (entries (conn w)))) comp_id shooter_id squad_id
           (dorsal_text (data_get headers row "dorsal"))].
Proof.
  intros Hk Hne Hsh. unfold inscription_row, bind, lift, query, execute, ret.
  rewrite Hk. cbv beta iota. rewrite (dni_truthy_some k Hne). cbv beta iota. rewrite Hsh.
  destruct (select_squad comp_id (py_or (data_get headers row "squad") (CStr "Sin escuadra"))
              (conn w)) as [squad_id|].
  - exists squad_id. eexists. cbn [file conn stdout]. split; reflexivity.
  - eexists. eexists. cbn [file conn stdout]. split; reflexivity.
Qed.

(** C2, as amended.  Nothing keeps the dorsals of a competition distinct.
    In the loop, an inscription row of a known shooter counts one more and
    adds one entry, with the dorsal of the row, after the entries of the
    connection, whatever they are.  A call that imports one such row into an
    existing competition returns 1 and adds one entry with a new id, the
    dorsal of the row and that competition after the entries that were
    there, which stay as they were, whether or not one of them bears that
    dorsal in that competition: no error, no rejection, and no entry
    overwritten or merged. *)
Theorem duplicate_dorsal_adds_an_entry :
  forall (db : store) (name : string) (comp_id : Z) (sheets : list (string * sheet))
         (headers row : list cell) (k : string) (shooter_id : Z),
    select_competition name db = Some comp_id ->
    sheet_named "Inscripciones" sheets = Some [headers; row] ->
    row_shooter_dni (data_get headers row "shooter_dni") = inl (Some k) ->
    k <> "" ->
    select_shooter_by_dni k db = Some shooter_id ->
    (forall created w,
        select_shooter_by_dni k (conn w) = Some shooter_id ->
        exists squad_id c',
          inscription_row comp_id headers row created w
          = (inl (created + 1), mk_world (file w) c' (stdout w)) /\
          entries c'
          = entries (conn w) ++
              [mk_entry (Sql.next_id (map en_id (entries (conn w)))) comp_id shooter_id
                 squad_id (dorsal_text (data_get headers row "dorsal"))]) /\
    (let o := import_inscriptions_from_excel (Xlsx sheets) name db in
     exists squad_id,
       let e1 := mk_entry (Sql.next_id (map en_id (entries db))) comp_id shooter_id squad_id
                   (dorsal_text (data_get headers row "dorsal")) in
       result o = inl 1 /\
       entries (db_after o) = entries db ++ [e1] /\
       (forall e0, In e0 (entries db) -> e0 <> e1)).
Proof.
  intros db name comp_id sheets headers row k shooter_id Hc Hs Hk Hne Hsh.
  split; [intros created w Hw; now apply (inscription_row_known _ _ _ _ _ k) |].
  intros o.
  destruct (inscription_row_known comp_id headers row 0 (get_conn db) k shooter_id Hk Hne Hsh)
    as (squad_id & c' & Hrow & Hc').
  assert (Ho : o = (inl 1, c', ["Inscripciones importadas: " ++ str_of_Z 1]%string)).
  { unfold o, import_inscriptions_from_excel, run.
    rewrite (import_inscriptions_known _ _ _ _ _ _ Hc Hs).
    cbn [inscription_rows]. unfold bind at 1. rewrite Hrow. reflexivity. }
  exists squad_id. cbv zeta. rewrite Ho. cbn [result db_after fst snd get_conn conn] in *.
  split; [reflexivity|]. split; [exact Hc'|].
  intros e0 Hin ->.
  apply (in_map en_id) in Hin. apply next_id_fresh in Hin. cbn [en_id] in Hin. lia.
Qed.

(** The dorsal 1 of Cup2024, taken by the first shooter, given to the second
    one as well. *)
Lemma duplicate_dorsal_adds_an_entry_witness :
  select_competition "Cup2024" Examples.db_inscribed = Some 1 /\
  select_shooter_by_dni "23456789B" Examples.db_inscribed = Some 2 /\
  exists squad_id,
    result (import_inscriptions_from_excel Examples.inscripcion_repetida "Cup2024"
              Examples.db_inscribed) = inl 1 /\
    entries (db_after (import_inscriptions_from_excel Examples.inscripcion_repetida "Cup2024"
                         Examples.db_inscribed))
    = entries Examples.db_inscribed ++ [mk_entry 4 1 2 squad_id (Some "1")].
Proof.
  split; [reflexivity|]. split; [reflexivity|].
  destruct (duplicate_dorsal_adds_an_entry Examples.db_inscribed "Cup2024" 1
              [("Inscripciones",
                [Examples.inscripciones_header; Examples.inscripcion "1" "23456789B"])]
              Examples.inscripciones_header (Examples.inscripcion "1" "23456789B")
              "23456789B" 2 eq_refl eq_refl eq_refl ltac:(discriminate) eq_refl)
    as (_ & squad_id & H1 & H2 & _).
  exists squad_id. split; [exact H1 | exact H2].
Defined.

(** C2 as stated fails: from a new database the imports reach one in which
    the dorsal 1 of Cup2024 is borne by two entries, and the import that
    adds the second one returns its count, 1, with no exception. *)
Lemma duplicate_dorsal_is_reachable :
  let o := import_inscriptions_from_excel Examples.inscripcion_repetida "Cup2024"
             Examples.db_inscribed in
  reachable (db_after o) /\
  result o = inl 1 /\
  map (fun e => (en_competition_id e, en_shooter_id e, en_dorsal e)) (entries (db_after o))
  = [(1, 3, Some "3"); (1, 1, Some "1"); (1, 2, Some "2"); (1, 2, Some "1")] /\
  ~ dorsal_unique (db_after o).
Proof.
  cbv zeta. split; [|split; [|split]].
  - apply reach_inscriptions. unfold Examples.db_inscribed. apply reach_inscriptions.
    unfold Examples.db_shooters. apply reach_shooters. apply reach_init.
  - vm_compute. reflexivity.
  - vm_compute. reflexivity.
  - intros H.
    specialize (H (mk_entry 2 1 1 1 (Some "1")) (mk_entry 4 1 2 1 (Some "1")) "1").
    assert (E : mk_entry 2 1 1 1 (Some "1") = mk_entry 4 1 2 1 (Some "1")).
    { apply H; [vm_compute; tauto | vm_compute; tauto | reflexivity..]. }
    discriminate E.
Qed.

(** C6 as stated fails: the second row of the sheet has hits that are no
    number, the call raises [ValueError] after the connection has stored
    the result of the first row, and the database holds no result after
    the call. *)
Lemma partial_results_are_not_kept :
  let run := import_results Examples.utcnow Examples.resultados_malos "Cup2024"
               (get_conn Examples.db_inscribed) in
  let o := import_results_from_excel Examples.utcnow Examples.resultados_malos "Cup2024"
             Examples.db_inscribed in
  fst run = inr ValueError /\
  map rr_score (round_results (conn (snd run))) = [24] /\
  result o = inr ValueError /\
  round_results (db_after o) = [].
Proof. cbv zeta. repeat split; vm_compute; reflexivity. Qed.

End PerRoundDorsal.

(** * The import of shooters *)

Section ListFacts.

Context {A : Type}.
Variable p : A -> bool.

Lemma filter_find_none (l : list A) : find p l = None -> filter p l = [].
Proof.
  induction l as [|a l IH]; simpl; [reflexivity|].
  destruct (p a); [discriminate | exact IH].
Qed.

Lemma filter_find_single (l : list A) (x : A) :
  find p l = Some x -> (List.length (filter p l) <= 1)%nat -> filter p l = [x].
Proof.
  induction l as [|a l IH]; simpl; [discriminate|].
  destruct (p a) eqn:E.
  - intros [= ->]. simpl. intros H. destruct (filter p l); [reflexivity | simpl in H; lia].
  - exact IH.
Qed.

Lemma find_filter_single (l : list A) (x : A) : filter p l = [x] -> find p l = Some x.
Proof.
  induction l as [|a l IH]; simpl; [discriminate|].
  destruct (p a); [now intros [= ->] | exact IH].
Qed.

Lemma filter_map_same (f : A -> A) (l : list A) :
  (forall y, p (f y) = p y) -> filter p (map f l) = map f (filter p l).
Proof.
  intros H. induction l as [|a l IH]; simpl; [reflexivity|].
  rewrite H. destruct (p a); simpl; now rewrite IH.
Qed.

Lemma existsb_find_none (l : list A) : find p l = None -> existsb p l = false.
Proof.
  induction l as [|a l IH]; simpl; [reflexivity|].
  destruct (p a); [discriminate | exact IH].
Qed.

End ListFacts.

Section PerRoundShooters.

Import Py Excel Conn PerRound.

Lemma has_dni_eq k x : has_dni k x = true -> sh_dni x = Some k.
Proof.
  unfold has_dni, Sql.text_eqb. destruct (sh_dni x) as [d|]; [|discriminate].
  now intros ->%String.eqb_eq.
Qed.

(** The UPDATE of the shooter that bears the key [k]. *)
Lemma update_shooter_by_key nombre club categoria licencia pais n k x db :
  Sql.text nombre = Some n ->
  find (has_dni k) (shooters db) = Some x ->
  (List.length (filter (has_dni k) (shooters db)) <= 1)%nat ->
  exists db',
    update_shooter nombre club categoria licencia pais (sh_id x) db = inl db' /\
    filter (has_dni k) (shooters db')
    = [mk_shooter (sh_id x) n (Sql.text club) (Sql.text categoria) (Sql.text licencia)
         (Sql.text pais) (Some k)] /\
    List.length (shooters db') = List.length (shooters db) /\
    (forall k', List.length (filter (has_dni k') (shooters db'))
                = List.length (filter (has_dni k') (shooters db))).
Proof.
  intros Hn Hfind Hlen. unfold update_shooter. rewrite Hn. eexists. split; [reflexivity|].
  cbn [shooters].
  assert (Hsame : forall k' y,
             has_dni k'
               (if sh_id y =? sh_id x
                then mk_shooter (sh_id y) n (Sql.text club) (Sql.text categoria)
                       (Sql.text licencia) (Sql.text pais) (sh_dni y)
                else y) = has_dni k' y).
  { intros k' y. now destruct (sh_id y =? sh_id x). }
  split; [|split].
  - rewrite (filter_map_same _ _ _ (Hsame k)).
    rewrite (filter_find_single _ _ _ Hfind Hlen). cbn [map].
    rewrite Z.eqb_refl. apply find_some in Hfind as [_ Hk].
    now rewrite (has_dni_eq _ _ Hk).
  - apply length_map.
  - intros k'. rewrite (filter_map_same _ _ _ (Hsame k')). apply length_map.
Qed.

(** The INSERT OR IGNORE of a shooter whose key [k] nobody bears. *)
Lemma insert_shooter_new_key nombre club categoria licencia pais n k db :
  Sql.text nombre = Some n ->
  find (has_dni k) (shooters db) = None ->
  let x := mk_shooter (Sql.next_id (map sh_id (shooters db))) n (Sql.text club)
             (Sql.text categoria) (Sql.text licencia) (Sql.text pais) (Some k) in
  shooters (insert_or_ignore_shooter nombre club categoria licencia pais (Some k) db)
  = shooters db ++ [x] /\
  filter (has_dni k)
    (shooters (insert_or_ignore_shooter nombre club categoria licencia pais (Some k) db))
  = [x].
Proof.
  intros Hn Hfind x. unfold insert_or_ignore_shooter. rewrite Hn.
  change (fun x0 => Sql.text_eqb (sh_dni x0) (Some k)) with (has_dni k).
  rewrite (existsb_find_none _ _ Hfind). cbn [shooters]. split; [reflexivity|].
  rewrite filter_app, (filter_find_none _ _ Hfind). cbn [filter app].
  unfold has_dni at 1. cbn [sh_dni Sql.text_eqb]. now rewrite String.eqb_refl.
Qed.

(** The INSERT OR IGNORE of a shooter without a key. *)
Lemma insert_shooter_null_key nombre club categoria licencia pais n db :
  Sql.text nombre = Some n ->
  shooters (insert_or_ignore_shooter nombre club categoria licencia pais None db)
  = shooters db ++
      [mk_shooter (Sql.next_id (map sh_id (shooters db))) n (Sql.text club)
         (Sql.text categoria) (Sql.text licencia) (Sql.text pais) None].
Proof.
  intros Hn. unfold insert_or_ignore_shooter. rewrite Hn.
  assert (E : existsb (fun x => Sql.text_eqb (sh_dni x) None) (shooters db) = false).
  { induction (shooters db) as [|a l IH]; simpl; [reflexivity|].
    rewrite IH. now destruct (sh_dni a). }
  now rewrite E.
Qed.

(** The key of a row whose [dni] is a text. *)
Lemma row_dni_text s :
  strip s <> "" -> strip s <> "None" -> row_dni (CStr s) = inl (Some (strip s)).
Proof.
  intros Hne Hnone. unfold row_dni, py_or, truthy.
  destruct (String.eqb_spec s "") as [->|_]; [now elim Hne|]. cbn [negb].
  now destruct (String.eqb_spec (strip s) "None").
Qed.

(** A call whose sheet has one data row. *)
Lemma import_shooters_one sheets headers row db :
  sheet_named "Tiradores" sheets = Some [headers; row] ->
  import_shooters_from_excel (Xlsx sheets) db
  = let '(r, w1) := shooter_row headers row 0 (get_conn db) in
    match r with
    | inl created =>
        (inl created, conn w1,
         stdout w1 ++ ["Tiradores importados/actualizados: " ++ str_of_Z created]%string)
    | inr e => (inr e, file w1, stdout w1)
    end.
Proof.
  intros Hs. unfold import_shooters_from_excel, run, import_shooters. rewrite Hs.
  cbn [shooter_rows]. unfold bind at 1. unfold bind at 1.
  now destruct (shooter_row headers row 0 (get_conn db)) as [[c|e] w1].
Qed.

(** A row that bears a key: the shooter of that key is updated, or a
    shooter is inserted when nobody bears it. *)
Lemma shooter_row_keyed headers row created w k n :
  row_dni (data_get headers row "dni") = inl (Some k) ->
  k <> "" ->
  Sql.text (data_get headers row "nombre") = Some n ->
  (List.length (filter (has_dni k) (shooters (conn w))) <= 1)%nat ->
  exists id c' created',
    shooter_row headers row created w = (inl created', mk_world (file w) c' (stdout w)) /\
    (created' = created <-> select_shooter_by_dni k (conn w) <> None) /\
    (created' = created + 1 <-> select_shooter_by_dni k (conn w) = None) /\
    (forall id0, select_shooter_by_dni k (conn w) = Some id0 ->
                 id = id0 /\ List.length (shooters c') = List.length (shooters (conn w))) /\
    filter (has_dni k) (shooters c')
    = [mk_shooter id n (Sql.text (data_get headers row "club"))
         (Sql.text (data_get headers row "categoria"))
         (Sql.text (data_get headers row "licencia"))
         (Sql.text (data_get headers row "pais")) (Some k)].
Proof.
  intros Hk Hne Hn Hlen. unfold shooter_row, bind, lift, query, execute, execute_checked, ret.
  rewrite Hk. cbv beta iota. rewrite (dni_truthy_some k Hne). cbv beta iota.
  unfold select_shooter_by_dni.
  destruct (find (has_dni k) (shooters (conn w))) as [x|] eqn:Hfind; cbn [option_map].
  - destruct (update_shooter_by_key (data_get headers row "nombre")
                (data_get headers row "club") (data_get headers row "categoria")
                (data_get headers row "licencia") (data_get headers row "pais")
                n k x (conn w) Hn Hfind Hlen) as (db' & Hup & Hfilter & Hlen' & _).
    exists (sh_id x), db', created. rewrite Hup. split; [reflexivity|].
    split; [split; [discriminate | reflexivity]|].
    split; [split; [lia | discriminate]|].
    split; [|exact Hfilter]. intros id0 [= <-]. split; [reflexivity | exact Hlen'].
  - destruct (insert_shooter_new_key (data_get headers row "nombre")
                (data_get headers row "club") (data_get headers row "categoria")
                (data_get headers row "licencia") (data_get headers row "pais")
                n k (conn w) Hn Hfind) as [_ Hfilter].
    eexists. eexists. exists (created + 1). split; [reflexivity|].
    split; [split; [lia | congruence]|].
    split; [split; reflexivity|].
    split; [discriminate | exact Hfilter].
Qed.

End PerRoundShooters.

Section KivyShooters.

Import Py Excel Conn.

Lemma has_licencia_eq k x : Kivy.has_licencia k x = true -> Kivy.sh_licencia x = Some k.
Proof.
  unfold Kivy.has_licencia, Sql.text_eqb. destruct (Kivy.sh_licencia x) as [d|]; [|discriminate].
  now intros ->%String.eqb_eq.
Qed.

Lemma kivy_update_by_key numero nombre categoria comunidad n k x db :
  Sql.text nombre = Some n ->
  find (Kivy.has_licencia k) (Kivy.shooters db) = Some x ->
  (List.length (filter (Kivy.has_licencia k) (Kivy.shooters db)) <= 1)%nat ->
  exists db',
    Kivy.update_shooter numero nombre categoria comunidad (Kivy.sh_id x) db = inl db' /\
    filter (Kivy.has_licencia k) (Kivy.shooters db')
    = [Kivy.mk_shooter (Kivy.sh_id x) numero n (Sql.text categoria) (Sql.text comunidad)
         (Some k)] /\
    List.length (Kivy.shooters db') = List.length (Kivy.shooters db).
Proof.
  intros Hn Hfind Hlen. unfold Kivy.update_shooter. rewrite Hn. eexists.
  split; [reflexivity|]. cbn [Kivy.shooters].
  assert (Hsame : forall y,
             Kivy.has_licencia k
               (if Kivy.sh_id y =? Kivy.sh_id x
                then Kivy.mk_shooter (Kivy.sh_id y) numero n (Sql.text categoria)
                       (Sql.text comunidad) (Kivy.sh_licencia y)
                else y) = Kivy.has_licencia k y).
  { intros y. now destruct (Kivy.sh_id y =? Kivy.sh_id x). }
  split; [|apply length_map].
  rewrite (filter_map_same _ _ _ Hsame).
  rewrite (filter_find_single _ _ _ Hfind Hlen). cbn [map].
  rewrite Z.eqb_refl. apply find_some in Hfind as [_ Hk].
  now rewrite (has_licencia_eq _ _ Hk).
Qed.

Lemma kivy_insert_new_key numero nombre categoria comunidad n k db :
  Sql.text nombre = Some n ->
  find (Kivy.has_licencia k) (Kivy.shooters db) = None ->
  exists db',
    Kivy.insert_shooter numero nombre categoria comunidad k db = inl db' /\
    filter (Kivy.has_licencia k) (Kivy.shooters db')
    = [Kivy.mk_shooter (Sql.next_id (map Kivy.sh_id (Kivy.shooters db))) numero n
         (Sql.text categoria) (Sql.text comunidad) (Some k)].
Proof.
  intros Hn Hfind. unfold Kivy.insert_shooter. rewrite Hn.
  rewrite (existsb_find_none _ _ Hfind). eexists. split; [reflexivity|].
  cbn [Kivy.shooters].
  rewrite filter_app, (filter_find_none _ _ Hfind). cbn [filter app].
  unfold Kivy.has_licencia at 1. cbn [Kivy.sh_licencia Sql.text_eqb].
  now rewrite String.eqb_refl.
Qed.

Lemma row_licencia_text lic nombre numero :
  lic <> CNone -> str lic <> "" -> Kivy.row_licencia lic nombre numero = str lic.
Proof.
  intros Hl Hs. unfold Kivy.row_licencia.
  destruct lic as [|t|z|b]; [now elim Hl | | |].
  - now destruct (String.eqb_spec (str (CStr t)) "").
  - now destruct (String.eqb_spec (str (CInt z)) "").
  - now destruct (String.eqb_spec (str (CBool b)) "").
Qed.

Lemma kivy_import_one sheets headers row idx_nombre idx_categoria db :
  sheet_named "Tiradores" sheets = Some [headers; row] ->
  Kivy.index headers "Nombre" = Some idx_nombre ->
  Kivy.index headers "Categoría" = Some idx_categoria ->
  Kivy.import_shooters_from_excel (Xlsx sheets) db
  = let '(r, w1) :=
      Kivy.shooter_row (Kivy.index headers "Nº") idx_nombre idx_categoria
        (Kivy.index headers "Comunidad / País") (Kivy.index headers "Licencia") row (0, 0)
        (get_conn db) in
    match r with
    | inl c => (inl c, conn w1, stdout w1)
    | inr e => (inr e, file w1, stdout w1)
    end.
Proof.
  intros Hs Hn Hc. unfold Kivy.import_shooters_from_excel, run, Kivy.import_shooters.
  rewrite Hs, Hn, Hc. cbn [Kivy.shooter_rows]. unfold bind at 1. unfold bind at 1.
  now destruct (Kivy.shooter_row _ _ _ _ _ _ _ _) as [[c|e] w1].
Qed.

Lemma kivy_shooter_row_keyed idx_num idx_nombre idx_categoria idx_comunidad idx_lic row
      created updated w numero nombre categoria comunidad lic n :
  Kivy.row_cells idx_num idx_nombre idx_categoria idx_comunidad idx_lic row
  = inl (numero, nombre, categoria, comunidad, lic) ->
  lic <> CNone -> str lic <> "" ->
  Sql.text nombre = Some n ->
  (List.length (filter (Kivy.has_licencia (str lic)) (Kivy.shooters (conn w))) <= 1)%nat ->
  exists id c' counts,
    Kivy.shooter_row idx_num idx_nombre idx_categoria idx_comunidad idx_lic row
      (created, updated) w
    = (inl counts, mk_world (file w) c' (stdout w)) /\
    (forall id0, Kivy.select_shooter_by_licencia (str lic) (conn w) = Some id0 ->
                 id = id0 /\ counts = (created, updated + 1) /\
                 List.length (Kivy.shooters c') = List.length (Kivy.shooters (conn w))) /\
    (Kivy.select_shooter_by_licencia (str lic) (conn w) = None ->
     counts = (created + 1, updated)) /\
    filter (Kivy.has_licencia (str lic)) (Kivy.shooters c')
    = [Kivy.mk_shooter id numero n (Sql.text categoria) (Sql.text comunidad)
         (Some (str lic))].
Proof.
  intros Hcells Hl Hs Hn Hlen.
  unfold Kivy.shooter_row, bind, lift, query, execute_checked, ret.
  rewrite Hcells. cbv beta iota. rewrite (row_licencia_text _ _ _ Hl Hs).
  unfold Kivy.select_shooter_by_licencia.
  destruct (find (Kivy.has_licencia (str lic)) (Kivy.shooters (conn w))) as [x|] eqn:Hfind;
    cbn [option_map].
  - destruct (kivy_update_by_key numero nombre categoria comunidad n (str lic) x (conn w)
                Hn Hfind Hlen) as (db' & Hup & Hfilter & Hlen').
    exists (Kivy.sh_id x), db', (created, updated + 1). rewrite Hup.
    split; [reflexivity|]. split; [|split; [discriminate | exact Hfilter]].
    intros id0 [= <-]. auto.
  - destruct (kivy_insert_new_key numero nombre categoria comunidad n (str lic) (conn w)
                Hn Hfind) as (db' & Hins & Hfilter).
    eexists. exists db', (created + 1, updated). rewrite Hins.
    split; [reflexivity|]. split; [discriminate|]. split; [reflexivity | exact Hfilter].
Qed.

End KivyShooters.

Section ImportTwice.

Import Py Excel Conn.

(** C1, as amended.  Per-round prototype, for a row that has a name and
    whose [dni] is a text that, stripped, is neither empty nor the text
    None.  In the loop, on a connection where at most one shooter bears the
    key, the row leaves exactly one shooter with the key, with the fields
    of the row; it counts one more when nobody bore the key and nothing
    more when somebody did, whose record it is then, by its id, among as
    many shooters as before.  A call with that one row on a database with
    distinct keys leaves exactly one shooter with the key; a second call
    with a row of the same key and a name (the same row, for one) returns 0,
    nothing created, and leaves as many shooters, of which exactly one
    bears the key: the same record, by its id, with the fields of the second
    row.  Total-only prototype: the same for a row with a name and a licence
    that is not empty, where the second call returns 0 created and 1
    updated. *)
Theorem import_shooter_twice_updates :
  forall (db : PerRound.store) (sheets sheets2 : list (string * sheet))
         (headers row headers2 row2 : list cell) (s s2 n n2 : string)
         (kdb : Kivy.store) (ksheets ksheets2 : list (string * sheet))
         (kheaders krow krow2 : list cell) (idx_nombre idx_categoria : nat)
         (numero nombre categoria comunidad lic numero2 nombre2 categoria2 comunidad2 lic2
            : cell)
         (kn kn2 : string),
    PerRound.dni_unique db ->
    sheet_named "Tiradores" sheets = Some [headers; row] ->
    sheet_named "Tiradores" sheets2 = Some [headers2; row2] ->
    data_get headers row "dni" = CStr s ->
    data_get headers2 row2 "dni" = CStr s2 ->
    strip s2 = strip s ->
    strip s <> "" ->
    strip s <> "None" ->
    Sql.text (data_get headers row "nombre") = Some n ->
    Sql.text (data_get headers2 row2 "nombre") = Some n2 ->
    Kivy.licencia_unique kdb ->
    sheet_named "Tiradores" ksheets = Some [kheaders; krow] ->
    sheet_named "Tiradores" ksheets2 = Some [kheaders; krow2] ->
    Kivy.index kheaders "Nombre" = Some idx_nombre ->
    Kivy.index kheaders "Categoría" = Some idx_categoria ->
    Kivy.row_cells (Kivy.index kheaders "Nº") idx_nombre idx_categoria
      (Kivy.index kheaders "Comunidad / País") (Kivy.index kheaders "Licencia") krow
    = inl (numero, nombre, categoria, comunidad, lic) ->
    Kivy.row_cells (Kivy.index kheaders "Nº") idx_nombre idx_categoria
      (Kivy.index kheaders "Comunidad / País") (Kivy.index kheaders "Licencia") krow2
    = inl (numero2, nombre2, categoria2, comunidad2, lic2) ->
    lic <> CNone ->
    lic2 <> CNone ->
    str lic2 = str lic ->
    str lic <> "" ->
    Sql.text nombre = Some kn ->
    Sql.text nombre2 = Some kn2 ->
    (forall created w,
        (List.length (filter (PerRound.has_dni (strip s)) (PerRound.shooters (conn w))) <= 1)%nat ->
        exists id c' created',
          PerRound.shooter_row headers row created w
          = (inl created', mk_world (file w) c' (stdout w)) /\
          (created' = created <->
           PerRound.select_shooter_by_dni (strip s) (conn w) <> None) /\
          (created' = created + 1 <->
           PerRound.select_shooter_by_dni (strip s) (conn w) = None) /\
          (forall id0,
              PerRound.select_shooter_by_dni (strip s) (conn w) = Some id0 ->
              id = id0 /\
              List.length (PerRound.shooters c')
              = List.length (PerRound.shooters (conn w))) /\
          filter (PerRound.has_dni (strip s)) (PerRound.shooters c')
          = [PerRound.mk_shooter id n (Sql.text (data_get headers row "club"))
               (Sql.text (data_get headers row "categoria"))
               (Sql.text (data_get headers row "licencia"))
               (Sql.text (data_get headers row "pais")) (Some (strip s))]) /\
    (let k := strip s in
     let o1 := PerRound.import_shooters_from_excel (Xlsx sheets) db in
     let o2 := PerRound.import_shooters_from_excel (Xlsx sheets2) (db_after o1) in
     exists id,
       filter (PerRound.has_dni k) (PerRound.shooters (db_after o1))
       = [PerRound.mk_shooter id n (Sql.text (data_get headers row "club"))
            (Sql.text (data_get headers row "categoria"))
            (Sql.text (data_get headers row "licencia"))
            (Sql.text (data_get headers row "pais")) (Some k)] /\
       result o2 = inl 0 /\
       filter (PerRound.has_dni k) (PerRound.shooters (db_after o2))
       = [PerRound.mk_shooter id n2 (Sql.text (data_get headers2 row2 "club"))
            (Sql.text (data_get headers2 row2 "categoria"))
            (Sql.text (data_get headers2 row2 "licencia"))
            (Sql.text (data_get headers2 row2 "pais")) (Some k)] /\
       List.length (PerRound.shooters (db_after o2))
       = List.length (PerRound.shooters (db_after o1))) /\
    (forall created updated w,
        (List.length (filter (Kivy.has_licencia (str lic)) (Kivy.shooters (conn w))) <= 1)%nat ->
        exists id c' counts,
          Kivy.shooter_row (Kivy.index kheaders "Nº") idx_nombre idx_categoria
            (Kivy.index kheaders "Comunidad / País") (Kivy.index kheaders "Licencia") krow
            (created, updated) w
          = (inl counts, mk_world (file w) c' (stdout w)) /\
          (forall id0,
              Kivy.select_shooter_by_licencia (str lic) (conn w) = Some id0 ->
              id = id0 /\ counts = (created, updated + 1) /\
              List.length (Kivy.shooters c') = List.length (Kivy.shooters (conn w))) /\
          (Kivy.select_shooter_by_licencia (str lic) (conn w) = None ->
           counts = (created + 1, updated)) /\
          filter (Kivy.has_licencia (str lic)) (Kivy.shooters c')
          = [Kivy.mk_shooter id numero kn (Sql.text categoria) (Sql.text comunidad)
               (Some (str lic))]) /\
    (let k := str lic in
     let o1 := Kivy.import_shooters_from_excel (Xlsx ksheets) kdb in
     let o2 := Kivy.import_shooters_from_excel (Xlsx ksheets2) (db_after o1) in
     exists id,
       filter (Kivy.has_licencia k) (Kivy.shooters (db_after o1))
       = [Kivy.mk_shooter id numero kn (Sql.text categoria) (Sql.text comunidad) (Some k)] /\
       result o2 = inl (0, 1) /\
       filter (Kivy.has_licencia k) (Kivy.shooters (db_after o2))
       = [Kivy.mk_shooter id numero2 kn2 (Sql.text categoria2) (Sql.text comunidad2)
            (Some k)] /\
       List.length (Kivy.shooters (db_after o2)) = List.length (Kivy.shooters (db_after o1))).
Proof.
  intros db sheets sheets2 headers row headers2 row2 s s2 n n2
    kdb ksheets ksheets2 kheaders krow krow2 idx_nombre idx_categoria
    numero nombre categoria comunidad lic numero2 nombre2 categoria2 comunidad2 lic2 kn kn2
    Hdb Hs Hs2 Hd Hd2 Hsame Hne Hnone Hn Hn2
    Hkdb Hks Hks2 Hin Hic Hcells Hcells2 Hl Hl2 Hlsame Hlne Hkn Hkn2.
  split; [|split; [|split]].
  - intros created w Hlen. apply shooter_row_keyed; try assumption.
    rewrite Hd. now apply row_dni_text.
  - intros k o1 o2.
    assert (Hk : PerRound.row_dni (data_get headers row "dni") = inl (Some k))
      by (rewrite Hd; now apply row_dni_text).
    assert (Hk2 : PerRound.row_dni (data_get headers2 row2 "dni") = inl (Some k)).
    { rewrite Hd2. unfold k. rewrite <- Hsame. apply row_dni_text; now rewrite Hsame. }
    destruct (shooter_row_keyed headers row 0 (get_conn db) k n Hk Hne Hn (Hdb k))
      as (id & c1 & created1 & Hrow1 & _ & _ & _ & Hf1).
    assert (Ho1 : db_after o1 = c1).
    { unfold o1. rewrite (import_shooters_one _ _ _ _ Hs), Hrow1. reflexivity. }
    assert (Hlen1 : (List.length (filter (PerRound.has_dni k)
                                    (PerRound.shooters (conn (get_conn c1)))) <= 1)%nat)
      by (cbn [get_conn conn]; rewrite Hf1; simpl; lia).
    destruct (shooter_row_keyed headers2 row2 0 (get_conn c1) k n2 Hk2 Hne Hn2 Hlen1)
      as (id2 & c2 & created2 & Hrow2 & Hupd & _ & Hid & Hf2).
    assert (Hsel : PerRound.select_shooter_by_dni k (conn (get_conn c1)) = Some id).
    { cbn [get_conn conn]. unfold PerRound.select_shooter_by_dni.
      now rewrite (find_filter_single _ _ _ Hf1). }
    destruct (Hid id Hsel) as [-> Hlen2].
    assert (created2 = 0) as -> by (apply Hupd; rewrite Hsel; discriminate).
    assert (Ho2 : o2 = (inl 0, c2, ["Tiradores importados/actualizados: " ++ str_of_Z 0]%string)).
    { unfold o2. rewrite Ho1, (import_shooters_one _ _ _ _ Hs2), Hrow2. reflexivity. }
    exists id. rewrite Ho1, Ho2. cbn [result db_after fst snd get_conn conn] in *.
    auto.
  - intros created updated w Hlen.
    now apply (kivy_shooter_row_keyed _ _ _ _ _ _ _ _ _ numero nombre categoria comunidad lic).
  - intros k o1 o2.
    destruct (kivy_shooter_row_keyed _ _ _ _ _ _ 0 0 (get_conn kdb) _ _ _ _ _ _
                Hcells Hl Hlne Hkn (Hkdb k))
      as (id & c1 & counts1 & Hrow1 & _ & _ & Hf1).
    assert (Ho1 : db_after o1 = c1).
    { unfold o1. rewrite (kivy_import_one _ _ _ _ _ _ Hks Hin Hic), Hrow1. reflexivity. }
    assert (Hlne2 : str lic2 <> "") by now rewrite Hlsame.
    assert (Hlen1 : (List.length (filter (Kivy.has_licencia (str lic2))
                                    (Kivy.shooters (conn (get_conn c1)))) <= 1)%nat)
      by (cbn [get_conn conn]; rewrite Hlsame, Hf1; simpl; lia).
    destruct (kivy_shooter_row_keyed _ _ _ _ _ _ 0 0 (get_conn c1) _ _ _ _ _ _
                Hcells2 Hl2 Hlne2 Hkn2 Hlen1)
      as (id2 & c2 & counts2 & Hrow2 & Hid & _ & Hf2).
    rewrite Hlsame in Hid, Hf2. fold k in Hid, Hf2, Hf1.
    assert (Hsel : Kivy.select_shooter_by_licencia k (conn (get_conn c1)) = Some id).
    { cbn [get_conn conn]. unfold Kivy.select_shooter_by_licencia.
      now rewrite (find_filter_single _ _ _ Hf1). }
    destruct (Hid id Hsel) as (-> & -> & Hlen2).
    assert (Ho2 : o2 = (inl (0, 0 + 1), c2, [])).
    { unfold o2. rewrite Ho1, (kivy_import_one _ _ _ _ _ _ Hks2 Hin Hic), Hrow2. reflexivity. }
    exists id. rewrite Ho1, Ho2. cbn [result db_after fst snd get_conn conn] in *.
    auto.
Qed.

End ImportTwice.

Section Keyless.

Import Py Excel Conn PerRound.

Lemma row_dni_keyless c :
  truthy c = false \/ (exists s, c = CStr s /\ strip s = "None") -> row_dni c = inl None.
Proof.
  unfold row_dni. intros [->|(s & -> & Hs)]; [reflexivity|].
  unfold py_or. destruct (truthy (CStr s)); [|reflexivity]. now rewrite Hs.
Qed.

(** A row without a key: no SELECT, and an INSERT OR IGNORE with a NULL
    key. *)
Lemma shooter_row_keyless headers row created w :
  row_dni (data_get headers row "dni") = inl None ->
  shooter_row headers row created w
  = (inl (created + 1),
     mk_world (file w)
       (insert_or_ignore_shooter (data_get headers row "nombre")
          (data_get headers row "club") (data_get headers row "categoria")
          (data_get headers row "licencia") (data_get headers row "pais") None (conn w))
       (stdout w)).
Proof.
  intros Hk. unfold shooter_row, bind, lift, query, execute, ret. now rewrite Hk.
Qed.

(** C10, as amended.  Per-round prototype: for a row with a name whose [dni]
    is missing or empty (any falsy cell) or a text that strips to None,
    nothing is looked up: whatever the connection holds, the row counts one
    more and adds a shooter with a NULL key after the shooters that are
    there.  A call with that one row returns 1, and a second call with the
    same row adds a second shooter with a NULL key and another id. *)
Theorem keyless_rows_are_inserted_anew :
  forall (db : store) (sheets : list (string * sheet)) (headers row : list cell)
         (n : string),
    sheet_named "Tiradores" sheets = Some [headers; row] ->
    truthy (data_get headers row "dni") = false \/
    (exists s, data_get headers row "dni" = CStr s /\ strip s = "None") ->
    Sql.text (data_get headers row "nombre") = Some n ->
    let o1 := import_shooters_from_excel (Xlsx sheets) db in
    let o2 := import_shooters_from_excel (Xlsx sheets) (db_after o1) in
    let x := fun id =>
               mk_shooter id n (Sql.text (data_get headers row "club"))
                 (Sql.text (data_get headers row "categoria"))
                 (Sql.text (data_get headers row "licencia"))
                 (Sql.text (data_get headers row "pais")) None in
    (forall created w,
        exists c',
          shooter_row headers row created w
          = (inl (created + 1), mk_world (file w) c' (stdout w)) /\
          shooters c'
          = shooters (conn w) ++ [x (Sql.next_id (map sh_id (shooters (conn w))))]) /\
    exists id1 id2,
      result o1 = inl 1 /\
      result o2 = inl 1 /\
      shooters (db_after o1) = shooters db ++ [x id1] /\
      shooters (db_after o2) = shooters db ++ [x id1; x id2] /\
      id1 <> id2.
Proof.
  intros db sheets headers row n Hs Hkey Hn o1 o2 x.
  apply row_dni_keyless in Hkey.
  split.
  { intros created w. eexists. split; [now apply shooter_row_keyless|].
    now apply insert_shooter_null_key. }
  assert (Ho : forall d,
             import_shooters_from_excel (Xlsx sheets) d
             = (inl 1,
                insert_or_ignore_shooter (data_get headers row "nombre")
                  (data_get headers row "club") (data_get headers row "categoria")
                  (data_get headers row "licencia") (data_get headers row "pais") None d,
                ["Tiradores importados/actualizados: " ++ str_of_Z 1]%string)).
  { intros d. rewrite (import_shooters_one _ _ _ _ Hs), (shooter_row_keyless _ _ _ _ Hkey).
    reflexivity. }
  exists (Sql.next_id (map sh_id (shooters db))).
  exists (Sql.next_id (map sh_id (shooters db) ++ [Sql.next_id (map sh_id (shooters db))])).
  unfold o2, o1. rewrite !Ho. cbn [result db_after fst snd].
  rewrite !(insert_shooter_null_key _ _ _ _ _ n) by exact Hn.
  rewrite map_app. cbn [map sh_id]. rewrite <- app_assoc. cbn [app].
  repeat split.
  assert (H : In (Sql.next_id (map sh_id (shooters db)))
                (map sh_id (shooters db) ++ [Sql.next_id (map sh_id (shooters db))]))
    by (apply in_or_app; right; now left).
  apply next_id_fresh in H. lia.
Qed.

(** A shooter without a [dni], imported twice after the three shooters
    with one. *)
Lemma keyless_rows_are_inserted_anew_witness :
  exists id1 id2,
    result (import_shooters_from_excel Examples.tirador_sin_dni Examples.db_shooters)
    = inl 1 /\
    map (fun x => (sh_id x, sh_dni x))
      (shooters
         (db_after
            (import_shooters_from_excel Examples.tirador_sin_dni
               (db_after
                  (import_shooters_from_excel Examples.tirador_sin_dni Examples.db_shooters)))))
    = [(1, Some "12345678A"); (2, Some "23456789B"); (3, Some "34567890C");
       (id1, None); (id2, None)] /\
    id1 <> id2.
Proof.
  destruct (keyless_rows_are_inserted_anew Examples.db_shooters
              [("Tiradores",
                [Examples.tiradores_header;
                 [CNone; CStr "Ana Vidal"; CStr "Club A"; CStr "Dama"; CStr "L-900";
                  CStr "ESP"; CNone]])]
              Examples.tiradores_header
              [CNone; CStr "Ana Vidal"; CStr "Club A"; CStr "Dama"; CStr "L-900";
               CStr "ESP"; CNone]
              "Ana Vidal" eq_refl (or_introl eq_refl) eq_refl)
    as (_ & id1 & id2 & H1 & _ & _ & H2 & H3).
  exists id1, id2. split; [exact H1|]. split; [|exact H3].
  change (Xlsx _) with Examples.tirador_sin_dni in H2.
  rewrite H2. reflexivity.
Defined.

(** C10 as stated fails: a row whose [dni] is three spaces is stored with
    the empty text as its key, not NULL, and importing it again stores no
    second shooter, though the call counts one more; and a row with neither
    a key nor a name is counted at both imports and never stored. *)
Lemma blank_dni_is_stored_once :
  (let o1 := import_shooters_from_excel Examples.tirador_en_blanco empty_db in
   let o2 := import_shooters_from_excel Examples.tirador_en_blanco (db_after o1) in
   result o1 = inl 1 /\
   result o2 = inl 1 /\
   map (fun x => (sh_id x, sh_nombre x, sh_dni x)) (shooters (db_after o2))
   = [(1, "Ana Vidal", Some "")]) /\
  (let o1 := import_shooters_from_excel Examples.tirador_sin_nada empty_db in
   let o2 := import_shooters_from_excel Examples.tirador_sin_nada (db_after o1) in
   result o1 = inl 1 /\
   result o2 = inl 1 /\
   shooters (db_after o2) = []).
Proof. cbv zeta. repeat split; vm_compute; reflexivity. Qed.

(** C1 as stated fails.  A row with the key 12345678A and no name is never
    stored: both imports count it as created and no shooter bears the key
    (the total-only prototype raises at both imports).  A row whose key is
    the text None is stored twice, without a key. *)
Lemma keyed_rows_not_stored_once :
  (let o1 := import_shooters_from_excel Examples.tirador_sin_nombre empty_db in
   let o2 := import_shooters_from_excel Examples.tirador_sin_nombre (db_after o1) in
   result o2 = inl 1 /\
   filter (has_dni "12345678A") (shooters (db_after o2)) = []) /\
  (let o1 := Kivy.import_shooters_from_excel Examples.kivy_sin_nombre Kivy.empty_db in
   let o2 := Kivy.import_shooters_from_excel Examples.kivy_sin_nombre (db_after o1) in
   result o2 = inr IntegrityError /\
   filter (Kivy.has_licencia "ESP12345") (Kivy.shooters (db_after o2)) = []) /\
  (let o1 := import_shooters_from_excel Examples.tirador_none empty_db in
   let o2 := import_shooters_from_excel Examples.tirador_none (db_after o1) in
   result o2 = inl 1 /\
   filter (has_dni "None") (shooters (db_after o2)) = [] /\
   map (fun x => (sh_id x, sh_dni x)) (shooters (db_after o2)) = [(1, None); (2, None)]).
Proof. cbv zeta. repeat split; vm_compute; reflexivity. Qed.

End Keyless.

(** * The databases the imports reach *)

Section ReachableStores.

Import Py Excel Conn PerRound.

Lemma filter_existsb_false {A} (p : A -> bool) (l : list A) :
  existsb p l = false -> filter p l = [].
Proof.
  induction l as [|a l IH]; simpl; [reflexivity|].
  destruct (p a); [discriminate | exact IH].
Qed.

Lemma update_shooter_dni_unique nombre club categoria licencia pais id s s' :
  update_shooter nombre club categoria licencia pais id s = inl s' ->
  dni_unique s -> dni_unique s'.
Proof.
  unfold update_shooter, dni_unique. destruct (Sql.text nombre) as [n|].
  - intros [= <-] H k. cbn [shooters].
    rewrite filter_map_same; [rewrite length_map; apply H|].
    intros y. now destruct (sh_id y =? id).
  - destruct (existsb _ _); [discriminate|]. now intros [= <-].
Qed.

Lemma insert_shooter_dni_unique nombre club categoria licencia pais dni s :
  dni_unique s ->
  dni_unique (insert_or_ignore_shooter nombre club categoria licencia pais dni s).
Proof.
  unfold insert_or_ignore_shooter, dni_unique. intros H.
  destruct (Sql.text nombre) as [n|]; [|exact H].
  destruct (existsb _ _) eqn:E; [exact H|].
  intros k. cbn [shooters]. rewrite filter_app, length_app. cbn [filter].
  destruct (has_dni k _) eqn:Ek; [|specialize (H k); simpl; lia].
  apply has_dni_eq in Ek. cbn [sh_dni] in Ek. subst dni.
  change (fun x => Sql.text_eqb (sh_dni x) (Some k)) with (has_dni k) in E.
  now rewrite (filter_existsb_false _ _ E).
Qed.

Lemma shooter_row_dni_unique headers row created w r w' :
  shooter_row headers row created w = (r, w') ->
  dni_unique (conn w) -> dni_unique (conn w').
Proof.
  unfold shooter_row, bind, lift, query, execute, execute_checked, ret.
  destruct (row_dni _) as [dni|e]; [|now intros [= _ <-]].
  destruct (if dni_truthy dni then _ else _) as [[[id|]|e] w1] eqn:E.
  - assert (w1 = w) as -> by (destruct (dni_truthy dni); now inversion E).
    destruct (update_shooter _ _ _ _ _ _ _) as [s'|e] eqn:Eu; intros [= _ <-]; [|auto].
    cbn [conn]. now apply (update_shooter_dni_unique _ _ _ _ _ _ _ _ Eu).
  - assert (w1 = w) as -> by (destruct (dni_truthy dni); now inversion E).
    intros [= _ <-]. cbn [conn]. apply insert_shooter_dni_unique.
  - destruct (dni_truthy dni); discriminate E.
Qed.

Lemma shooter_rows_dni_unique headers rows created w r w' :
  shooter_rows headers rows created w = (r, w') ->
  dni_unique (conn w) -> dni_unique (conn w').
Proof.
  revert created w. induction rows as [|row rows IH]; intros created w; simpl.
  - now intros [= _ <-].
  - unfold bind.
    destruct (shooter_row headers row created w) as [[c|e] w1] eqn:E.
    + intros H Hw. apply (IH _ _ H). now apply (shooter_row_dni_unique _ _ _ _ _ _ E).
    + intros [= _ <-]. now apply (shooter_row_dni_unique _ _ _ _ _ _ E).
Qed.

Lemma import_shooters_dni_unique f db :
  dni_unique db -> dni_unique (db_after (import_shooters_from_excel f db)).
Proof.
  intros H. unfold import_shooters_from_excel, run, import_shooters.
  destruct f as [|sheets]; [exact H|].
  destruct (sheet_named "Tiradores" sheets) as [[|headers rows]|]; try exact H.
  unfold bind at 1.
  destruct (shooter_rows headers rows 0 (get_conn db)) as [[c|e] w1] eqn:E.
  - cbn. now apply (shooter_rows_dni_unique _ _ _ _ _ _ E).
  - cbn. rewrite (shooter_rows_keeps_file _ _ _ _ _ _ E). exact H.
Qed.

Lemma inscription_rows_keeps_shooters comp_id headers rows created :
  keeps (fun w => shooters (conn w)) (inscription_rows comp_id headers rows created).
Proof.
  revert created. induction rows as [|row rows IH]; intros created; simpl.
  - apply keeps_ret.
  - apply keeps_bind; [apply inscription_row_keeps_shooters | intros c; apply IH].
Qed.

Lemma result_row_keeps_shooters utcnow comp_id name headers row created :
  keeps (fun w => shooters (conn w)) (result_row utcnow comp_id name headers row created).
Proof. unfold result_row. repeat keeps_step. Qed.

Lemma result_rows_keeps_shooters utcnow comp_id name headers rows created :
  keeps (fun w => shooters (conn w)) (result_rows utcnow comp_id name headers rows created).
Proof.
  revert created. induction rows as [|row rows IH]; intros created; simpl.
  - apply keeps_ret.
  - apply keeps_bind; [apply result_row_keeps_shooters | intros c; apply IH].
Qed.

Lemma import_inscriptions_shooters f name db :
  shooters (db_after (import_inscriptions_from_excel f name db)) = shooters db.
Proof.
  unfold import_inscriptions_from_excel, run.
  destruct f as [|sheets].
  - unfold import_inscriptions, bind, query, execute, raise, ret.
    cbn [get_conn conn]. now destruct (select_competition name db).
  - destruct (sheet_named "Inscripciones" sheets) as [[|headers rows]|] eqn:Hs.
    + unfold import_inscriptions, bind, query, execute, raise, ret. rewrite Hs.
      cbn [get_conn conn]. now destruct (select_competition name db).
    + destruct (import_inscriptions_rows name db) as (cid & c1 & Hc1 & Hrows).
      rewrite (Hrows _ _ _ Hs).
      destruct (inscription_rows cid headers rows 0 _) as [[c|e] w1] eqn:El.
      * pose proof (inscription_rows_keeps_shooters _ _ _ _ _ _ _ El) as H.
        cbn [conn] in H. unfold bind, commit, print, ret. cbn. congruence.
      * pose proof (inscription_rows_keeps_file _ _ _ _ _ _ _ El) as H.
        cbn [file] in H. cbn. congruence.
    + unfold import_inscriptions, bind, query, execute, print, ret. rewrite Hs.
      cbn [get_conn conn]. now destruct (select_competition name db).
Qed.

Lemma import_results_shooters utcnow f name db :
  shooters (db_after (import_results_from_excel utcnow f name db)) = shooters db.
Proof.
  unfold import_results_from_excel, run.
  destruct (import_results utcnow f name (get_conn db)) as [r w] eqn:E.
  cbn [db_after fst snd]. revert E. unfold import_results.
  unfold bind at 1. unfold query at 1. cbn [get_conn conn].
  destruct (select_competition name db) as [cid|]; [|now intros [= _ <-]].
  destruct f as [|sheets]; [now intros [= _ <-]|].
  destruct (sheet_named "Resultados" sheets) as [[|headers rows]|];
    try (now intros [= _ <-]).
  unfold bind at 1.
  destruct (result_rows utcnow cid name headers rows 0 _) as [[c|e] w1] eqn:El.
  - intros [= _ <-]. cbn [file conn].
    now rewrite (result_rows_keeps_shooters _ _ _ _ _ _ _ _ _ El).
  - intros [= _ <-]. now rewrite (result_rows_keeps_file _ _ _ _ _ _ _ _ _ El).
Qed.

(** The imports keep the keys of the shooters distinct. *)
Lemma reachable_dni_unique db : reachable db -> dni_unique db.
Proof.
  induction 1 as [|f db _ IH|f name db _ IH|utcnow f name db _ IH].
  - intros k. simpl. lia.
  - now apply import_shooters_dni_unique.
  - unfold dni_unique. now rewrite import_inscriptions_shooters.
  - unfold dni_unique. now rewrite import_results_shooters.
Qed.

End ReachableStores.

(** * The theorems at sample inputs *)

Section Witnesses.

Import Py Excel Conn PerRound.

(** The first shooter at another club, imported twice over the three
    shooters, and the same in the total-only prototype from a new
    database. *)
Lemma import_shooter_twice_updates_witness :
  (let o1 := import_shooters_from_excel Examples.tirador_cambiado Examples.db_shooters in
   let o2 := import_shooters_from_excel Examples.tirador_cambiado (db_after o1) in
   exists id,
     result o2 = inl 0 /\
     filter (has_dni "12345678A") (shooters (db_after o2))
     = [mk_shooter id "Juan Pérez" (Some "Club Z") (Some "Veterano") (Some "L-123")
          (Some "ESP") (Some "12345678A")]) /\
  (let o1 := Kivy.import_shooters_from_excel Examples.kivy_cambiado Kivy.empty_db in
   let o2 := Kivy.import_shooters_from_excel Examples.kivy_cambiado (db_after o1) in
   exists id,
     result o2 = inl (0, 1) /\
     filter (Kivy.has_licencia "ESP12345") (Kivy.shooters (db_after o2))
     = [Kivy.mk_shooter id (CInt 7) "Juan Pérez" (Some "Veterano") (Some "Andalucía")
          (Some "ESP12345")]).
Proof.
  pose (row := [CNone; CStr "Juan Pérez"; CStr "Club Z"; CStr "Veterano"; CStr "L-123";
                CStr "ESP"; CStr " 12345678A "]).
  pose (krow := [CInt 7; CStr "Juan Pérez"; CStr "Veterano"; CStr "Andalucía";
                 CStr "ESP12345"]).
  destruct (import_shooter_twice_updates Examples.db_shooters
              [("Tiradores", [Examples.tiradores_header; row])]
              [("Tiradores", [Examples.tiradores_header; row])]
              Examples.tiradores_header row Examples.tiradores_header row
              " 12345678A " " 12345678A " "Juan Pérez" "Juan Pérez"
              Kivy.empty_db
              [("Tiradores", [Examples.kivy_header; krow])]
              [("Tiradores", [Examples.kivy_header; krow])]
              Examples.kivy_header krow krow 1%nat 2%nat
              (CInt 7) (CStr "Juan Pérez") (CStr "Veterano") (CStr "Andalucía")
              (CStr "ESP12345")
              (CInt 7) (CStr "Juan Pérez") (CStr "Veterano") (CStr "Andalucía")
              (CStr "ESP12345")
              "Juan Pérez" "Juan Pérez"
              (reachable_dni_unique _ (reach_shooters _ _ reach_init))
              eq_refl eq_refl eq_refl eq_refl eq_refl
              ltac:(discriminate) ltac:(discriminate) eq_refl eq_refl
              ltac:(intros k; simpl; lia)
              eq_refl eq_refl eq_refl eq_refl eq_refl eq_refl
              ltac:(discriminate) ltac:(discriminate) eq_refl ltac:(discriminate)
              eq_refl eq_refl)
    as (_ & (id & _ & H2 & H3 & _) & _ & (kid & _ & K2 & K3 & _)).
  split; cbv zeta.
  - exists id. split; [exact H2 | exact H3].
  - exists kid. split; [exact K2 | exact K3].
Defined.

(** Cup2024 before any inscription: the results are refused, the
    inscriptions create the competition with the id 1. *)
Lemma results_need_the_competition_inscriptions_create_it_witness :
  select_competition "Cup2024" Examples.db_shooters = None /\
  import_results_from_excel Examples.utcnow Examples.resultados "Cup2024" Examples.db_shooters
  = (inr (competition_not_found "Cup2024"), Examples.db_shooters, []) /\
  result (import_inscriptions_from_excel Examples.inscripciones "Cup2024" Examples.db_shooters)
  = inl 3 /\
  select_competition "Cup2024"
    (db_after (import_inscriptions_from_excel Examples.inscripciones "Cup2024"
                 Examples.db_shooters)) = Some 1.
Proof.
  split; [reflexivity|].
  destruct (results_need_the_competition_inscriptions_create_it Examples.utcnow
              Examples.resultados "Cup2024" Examples.db_shooters eq_refl) as [H _].
  split; [exact H|].
  destruct (results_need_the_competition_inscriptions_create_it Examples.utcnow
              Examples.inscripciones "Cup2024" Examples.db_shooters eq_refl) as [_ H2].
  destruct (H2 _ _ _ eq_refl eq_refl) as [_ H3].
  split; [reflexivity|]. exact (proj1 (proj2 (H3 3 eq_refl))).
Defined.

(** An inscription for a shooter nobody imported, between three of known
    shooters; and a result for the dorsal 7, which nobody bears, between
    two of known dorsals. *)
Lemma unknown_references_are_skipped_witness :
  (let row := Examples.inscripcion "9" "00000000Z" in
   let before := [Examples.inscripcion "3" "34567890C"] in
   let after := [Examples.inscripcion "1" "12345678A"; Examples.inscripcion "2" "23456789B"] in
   let o := import_inscriptions_from_excel
              (Xlsx [("Inscripciones", Examples.inscripciones_header :: before ++ row :: after)])
              "Cup2024" Examples.db_shooters in
   select_shooter_by_dni "00000000Z" Examples.db_shooters = None /\
   result o = inl 3 /\
   db_after o = Examples.db_inscribed /\
   In (shooter_not_found "00000000Z") (printed o)) /\
  (let row := Examples.resultado 7 1 20 in
   let before := [Examples.resultado 1 1 24] in
   let after := [Examples.resultado 2 1 22] in
   let o := import_results_from_excel Examples.utcnow
              (Xlsx [("Resultados", Examples.resultados_header :: before ++ row :: after)])
              "Cup2024" Examples.db_inscribed in
   let o' := import_results_from_excel Examples.utcnow
               (Xlsx [("Resultados", Examples.resultados_header :: before ++ after)])
               "Cup2024" Examples.db_inscribed in
   select_entry 1 (Some "7") Examples.db_inscribed = None /\
   result o = inl 2 /\
   db_after o = db_after o' /\
   In (entry_not_found (Some "7") "Cup2024") (printed o)).
Proof.
  split; cbv zeta.
  - split; [reflexivity|].
    destruct (proj1 (unknown_references_are_skipped Examples.utcnow Examples.db_shooters
                       "Cup2024" Examples.inscripciones_header
                       (Examples.inscripcion "9" "00000000Z")
                       [Examples.inscripcion "3" "34567890C"]
                       [Examples.inscripcion "1" "12345678A";
                        Examples.inscripcion "2" "23456789B"]
                       [("Inscripciones",
                         Examples.inscripciones_header
                           :: [Examples.inscripcion "3" "34567890C"]
                           ++ Examples.inscripcion "9" "00000000Z"
                           :: [Examples.inscripcion "1" "12345678A";
                               Examples.inscripcion "2" "23456789B"])]
                       [("Inscripciones",
                         Examples.inscripciones_header
                           :: [Examples.inscripcion "3" "34567890C"]
                           ++ [Examples.inscripcion "1" "12345678A";
                               Examples.inscripcion "2" "23456789B"])])
                "00000000Z" eq_refl eq_refl eq_refl ltac:(discriminate) eq_refl)
      as (_ & H1 & H2 & H3).
    split; [reflexivity|]. split; [exact H2|]. exact (H3 3 eq_refl).
  - split; [reflexivity|].
    destruct (proj2 (unknown_references_are_skipped Examples.utcnow Examples.db_inscribed
                       "Cup2024" Examples.resultados_header
                       (Examples.resultado 7 1 20)
                       [Examples.resultado 1 1 24]
                       [Examples.resultado 2 1 22]
                       [("Resultados",
                         Examples.resultados_header
                           :: [Examples.resultado 1 1 24]
                           ++ Examples.resultado 7 1 20 :: [Examples.resultado 2 1 22])]
                       [("Resultados",
                         Examples.resultados_header
                           :: [Examples.resultado 1 1 24] ++ [Examples.resultado 2 1 22])])
                1 eq_refl eq_refl eq_refl eq_refl)
      as (_ & H1 & H2 & H3).
    split; [reflexivity|]. split; [exact H2|]. exact (H3 2 eq_refl).
Defined.

(** The sheet whose second row has hits that are no number. *)
Lemma failed_import_leaves_database_witness :
  result (import_results_from_excel Examples.utcnow Examples.resultados_malos "Cup2024"
            Examples.db_inscribed) = inr ValueError /\
  db_after (import_results_from_excel Examples.utcnow Examples.resultados_malos "Cup2024"
              Examples.db_inscribed) = Examples.db_inscribed.
Proof.
  split; [reflexivity|].
  exact (proj1 (failed_import_leaves_database Examples.utcnow Examples.resultados_malos
                  "Cup2024" Examples.db_inscribed ValueError) eq_refl).
Defined.

(** A row for the dorsal 2 with 20 hits and nothing else: round 1, no
    misses, a score of 20. *)
Lemma result_row_defaults_witness :
  let row := [CStr "Cup2024"; CStr "S1"; CInt 2; CNone; CInt 20; CNone; CNone; CNone] in
  select_entry 1 (dorsal_text (data_get Examples.resultados_header row "dorsal"))
    Examples.db_inscribed = Some 3 /\
  exists w',
    result_row Examples.utcnow 1 "Cup2024" Examples.resultados_header row 0
      (get_conn Examples.db_inscribed) = (inl 1, w') /\
    round_results (conn w')
    = [mk_round_result 1 3 1 20 0 20 (Some "None") "2024-06-01T10:00:00"].
Proof.
  cbv zeta. split; [reflexivity|].
  destruct (result_row_defaults Examples.utcnow 1 "Cup2024" Examples.resultados_header
              [CStr "Cup2024"; CStr "S1"; CInt 2; CNone; CInt 20; CNone; CNone; CNone]
              0 (get_conn Examples.db_inscribed) 3 1 20 0 20
              eq_refl eq_refl eq_refl eq_refl eq_refl) as [(w' & H1 & _ & H2) _].
  exists w'. split; [exact H1 | exact H2].
Defined.

End Witnesses.
